(** * MediMate: the medication store and the adherence log of [app.py]

    A shallow embedding of the Flask handlers of [src/app.py] and of the
    two SQLite tables they work on, followed by the properties of the
    handlers.

    Conventions of the model.
    - A Python [str] is a [string]; a character is a code point below 256,
      so that SQLite's BINARY collation (bytewise comparison of the UTF-8
      encoding, which agrees with code point order) is [String.compare].
    - A Python [int] and an SQLite INTEGER are both [Z].  The ids SQLite
      assigns are assumed to stay inside its 64-bit range; an id that
      comes with a request may lie outside it, and binding it raises.
    - The database is passed explicitly: a handler maps the database before
      the request to the database after it, together with the messages it
      flashes and the response it returns.  Every handler commits before
      it returns or does not write at all, so a handler is one step.
    - The wall clock is an argument of the handlers that read it. *)

From Stdlib Require Import String Ascii List ZArith NArith Arith Bool Lia.
From Stdlib Require Import Sorted Permutation.
Import ListNotations.

Set Warnings "-abstract-large-number".
Local Open Scope string_scope.

(** ** Python strings *)

Module PyStr.

(** [str.isspace] on one code point below 256: TAB, LF, VT, FF, CR, the
    separators FS, GS, RS, US, SPACE, NEL and NO-BREAK SPACE. *)
Definition isspace (c : ascii) : bool :=
  let n := N_of_ascii c in
  (((9 <=? n) && (n <=? 13)) || ((28 <=? n) && (n <=? 32))
   || (n =? 133) || (n =? 160))%N.

(** [s.lstrip()] *)
Fixpoint lstrip (s : string) : string :=
  match s with
  | EmptyString => EmptyString
  | String c r => if isspace c then lstrip r else s
  end.

(** [s.rstrip()] *)
Fixpoint rstrip (s : string) : string :=
  match s with
  | EmptyString => EmptyString
  | String c r =>
      match rstrip r with
      | EmptyString => if isspace c then EmptyString else String c EmptyString
      | r' => String c r'
      end
  end.

(** [s.strip()] *)
Definition strip (s : string) : string := rstrip (lstrip s).

(** [str.lower] on one code point below 256: the ASCII capitals and the
    Latin-1 capitals (all of U+00C0..U+00DE but the multiplication sign). *)
Definition lower_char (c : ascii) : ascii :=
  let n := N_of_ascii c in
  if (((65 <=? n) && (n <=? 90))
      || ((192 <=? n) && (n <=? 222) && negb (n =? 215)))%N
  then ascii_of_N (n + 32)
  else c.

(** [s.lower()] *)
Fixpoint lower (s : string) : string :=
  match s with
  | EmptyString => EmptyString
  | String c r => String (lower_char c) (lower r)
  end.

(** [v or ""] for [v] of type [Optional[str]] *)
Definition or_empty (v : option string) : string :=
  match v with
  | Some s => s
  | None => EmptyString
  end.

(** [not s]: a string is falsy exactly when it is empty. *)
Definition falsy (s : string) : bool :=
  match s with
  | EmptyString => true
  | String _ _ => false
  end.

End PyStr.

(** ** Requests *)

Inductive http_method : Set := GET | POST.

(** [request.form] and [request.args]: the submitted fields in order;
    [get] returns the first value of a key, [None] when it is absent. *)
Definition multidict : Set := list (string * string).

Fixpoint md_get (key : string) (d : multidict) : option string :=
  match d with
  | [] => None
  | (k, v) :: rest => if String.eqb k key then Some v else md_get key rest
  end.

(** [(request.form.get(key) or "").strip()] *)
Definition field (key : string) (d : multidict) : string :=
  PyStr.strip (PyStr.or_empty (md_get key d)).

(** ** The clock *)

(** A naive local [datetime], truncated to the second. *)
Record datetime : Set := mkDatetime {
  year : nat; month : nat; day : nat;
  hour : nat; minute : nat; second : nat
}.

Definition is_leap (y : nat) : bool :=
  (((y mod 4 =? 0) && negb (y mod 100 =? 0)) || (y mod 400 =? 0))%nat.

Definition days_in_month (y m : nat) : nat :=
  match m with
  | 2 => if is_leap y then 29 else 28
  | 4 | 6 | 9 | 11 => 30
  | _ => 31
  end.

(** The values a Python [datetime] can take. *)
Definition valid_datetime (d : datetime) : bool :=
  ((1 <=? year d) && (year d <=? 9999)
   && (1 <=? month d) && (month d <=? 12)
   && (1 <=? day d) && (day d <=? days_in_month (year d) (month d))
   && (hour d <? 24) && (minute d <? 60) && (second d <? 60))%nat.

Definition digit (n : nat) : ascii := ascii_of_nat (48 + n mod 10).

(** ["%02d" % n] and ["%04d" % n] for [n] of at most two, resp. four,
    digits. *)
Definition pad2 (n : nat) (k : string) : string :=
  String (digit (n / 10)) (String (digit n) k).

Definition pad4 (n : nat) (k : string) : string :=
  pad2 (n / 100) (pad2 (n mod 100) k).

(** The date part, [YYYY-MM-DD]. *)
Definition isodate (d : datetime) : string :=
  pad4 (year d) (String "-" (pad2 (month d) (String "-" (pad2 (day d) "")))).

(** [d.isoformat(timespec="seconds")]: [YYYY-MM-DDTHH:MM:SS]. *)
Definition isoformat (d : datetime) : string :=
  pad4 (year d) (String "-" (pad2 (month d) (String "-" (pad2 (day d)
    (String "T" (pad2 (hour d) (String ":" (pad2 (minute d)
      (String ":" (pad2 (second d) "")))))))))).

(** [now_iso()], with the clock reading [now] made explicit. *)
Definition now_iso (now : datetime) : string := isoformat now.

(** ** The database *)

(** A row of [meds]. *)
Module Meds.
Record row : Set := mk {
  id : Z;
  name : string;
  dose : string;
  time_of_day : string;
  notes : option string;
  created_at : string
}.
End Meds.

(** A row of [taken_logs]. *)
Module TakenLogs.
Record row : Set := mk {
  id : Z;
  med_id : Z;
  taken_at : string
}.
End TakenLogs.

(** The two tables in rowid order, and the AUTOINCREMENT counter that
    SQLite keeps for each of them in [sqlite_sequence]. *)
Record db : Set := mkDb {
  meds : list Meds.row;
  taken_logs : list TakenLogs.row;
  meds_seq : Z;
  taken_logs_seq : Z
}.

(** [init_db()]: CREATE TABLE IF NOT EXISTS on a database file that is
    absent ([None]) or already there. *)
Definition init_db (file : option db) : db :=
  match file with
  | Some s => s
  | None => mkDb [] [] 0 0
  end.

(** The rowid AUTOINCREMENT assigns: one more than the largest rowid the
    table holds or has ever held. *)
Definition next_rowid (ids : list Z) (seq : Z) : Z :=
  (Z.max seq (fold_right Z.max 0 ids) + 1)%Z.

(** [INSERT INTO meds (name, dose, time_of_day, notes, created_at)] *)
Definition insert_med (n d t : string) (nt : option string) (c : string)
    (s : db) : db :=
  let i := next_rowid (map Meds.id (meds s)) (meds_seq s) in
  mkDb (meds s ++ [Meds.mk i n d t nt c]) (taken_logs s) i (taken_logs_seq s).

(** [INSERT INTO taken_logs (med_id, taken_at)] *)
Definition insert_log (m : Z) (at_ : string) (s : db) : db :=
  let i := next_rowid (map TakenLogs.id (taken_logs s)) (taken_logs_seq s) in
  mkDb (meds s) (taken_logs s ++ [TakenLogs.mk i m at_]) (meds_seq s) i.

(** [sqlite3] binds a Python [int] as a signed 64-bit INTEGER:
    [conn.execute(sql, (med_id,))] raises [OverflowError] ("Python int too
    large to convert to SQLite INTEGER") when [med_id] does not fit. *)
Definition fits_int64 (i : Z) : bool :=
  (- 2 ^ 63 <=? i)%Z && (i <? 2 ^ 63)%Z.

(** [SELECT ... FROM meds m WHERE m.id = ?], then [fetchone()], for an id
    that was bound. *)
Definition select_med (i : Z) (s : db) : option Meds.row :=
  find (fun m => (Meds.id m =? i)%Z) (meds s).

(** [UPDATE meds SET name = ?, dose = ?, time_of_day = ?, notes = ?
    WHERE id = ?] *)
Definition update_med (i : Z) (n d t : string) (nt : option string)
    (s : db) : db :=
  mkDb (map (fun m =>
               if (Meds.id m =? i)%Z
               then Meds.mk (Meds.id m) n d t nt (Meds.created_at m)
               else m) (meds s))
       (taken_logs s) (meds_seq s) (taken_logs_seq s).

(** [DELETE FROM taken_logs WHERE med_id = ?] *)
Definition delete_logs (i : Z) (s : db) : db :=
  mkDb (meds s)
       (filter (fun t => negb (TakenLogs.med_id t =? i)%Z) (taken_logs s))
       (meds_seq s) (taken_logs_seq s).

(** [DELETE FROM meds WHERE id = ?] *)
Definition delete_med_row (i : Z) (s : db) : db :=
  mkDb (filter (fun m => negb (Meds.id m =? i)%Z) (meds s))
       (taken_logs s) (meds_seq s) (taken_logs_seq s).

(** *** ORDER BY *)

Section OrderBy.
Context {A : Type} (before : A -> A -> bool).

Fixpoint insert_row (x : A) (l : list A) : list A :=
  match l with
  | [] => [x]
  | y :: r => if before x y then x :: l else y :: insert_row x r
  end.

(** The rows of [l] in the order of [before].  SQL leaves the order of
    rows that compare equal open; here they stay in table order. *)
Fixpoint order_by (l : list A) : list A :=
  match l with
  | [] => []
  | x :: r => insert_row x (order_by r)
  end.
End OrderBy.

(** *** Aggregates and date functions *)

(** [MAX] over TEXT values: NULL on no rows. *)
Fixpoint sql_max (l : list string) : option string :=
  match l with
  | [] => None
  | x :: r =>
      match sql_max r with
      | None => Some x
      | Some m => Some (if String.ltb m x then x else m)
      end
  end.

Definition is_digit (c : ascii) : bool :=
  let n := nat_of_ascii c in ((48 <=? n) && (n <=? 57))%nat.

Definition two_digits (a b : ascii) : nat :=
  (nat_of_ascii a - 48) * 10 + (nat_of_ascii b - 48).

(** SQLite's [date(X)] on a TEXT time value of the layout this program
    writes, [YYYY-MM-DDTHH:MM:SS] (SQLite takes a space for the [T] too):
    the date part [YYYY-MM-DD], and NULL when [X] is not a time value.
    The other layouts SQLite reads, and its roll-over of a day number past
    the end of the month, are outside the model: such values give [None]
    here and the program never stores one. *)
Definition sqlite_date (x : string) : option string :=
  match list_ascii_of_string x with
  | [y1; y2; y3; y4; p1; m1; m2; p2; d1; d2; sep; h1; h2; c1; n1; n2; c2;
     s1; s2] =>
      if forallb is_digit [y1; y2; y3; y4; m1; m2; d1; d2; h1; h2; n1; n2;
                           s1; s2]
         && Ascii.eqb p1 "-" && Ascii.eqb p2 "-"
         && (Ascii.eqb sep "T" || Ascii.eqb sep " ")
         && Ascii.eqb c1 ":" && Ascii.eqb c2 ":"
         && (1 <=? two_digits m1 m2)%nat && (two_digits m1 m2 <=? 12)%nat
         && (1 <=? two_digits d1 d2)%nat
         && (two_digits d1 d2 <=?
               days_in_month (two_digits y1 y2 * 100 + two_digits y3 y4)
                             (two_digits m1 m2))%nat
         && (two_digits h1 h2 <? 24)%nat && (two_digits n1 n2 <? 60)%nat
         && (two_digits s1 s2 <? 60)%nat
      then Some (substring 0 10 x)
      else None
  | _ => None
  end.

(** [date('now', 'localtime')] at the clock reading [now]. *)
Definition sqlite_today (now : datetime) : string := isodate now.

(** ** Validation *)

(** [validate_med_form(name, dose, schedule)] *)
Definition validate_med_form (name dose schedule : string) : bool * string :=
  if PyStr.falsy name || PyStr.falsy dose || PyStr.falsy schedule
  then (false, "Please fill in Name, Dose, and Schedule.")
  else if (60 <? String.length name)%nat
  then (false, "Medication name is too long (max 60 chars).")
  else if (60 <? String.length dose)%nat
  then (false, "Dose is too long (max 60 chars).")
  else if (40 <? String.length schedule)%nat
  then (false, "Schedule is too long (max 40 chars).")
  else (true, "").

(** ** Queries *)

(** A row of [SELECT m.*, m.time_of_day AS schedule FROM meds m]. *)
Record med_view : Set := mkMedView {
  mv_med : Meds.row;
  mv_schedule : string
}.

(** A row of the query of [index]: [m.*], [schedule] and [last_taken]. *)
Record index_row : Set := mkIndexRow {
  ir_med : Meds.row;
  ir_schedule : string;
  ir_last_taken : option string
}.

(** A row of the queries of [history]. *)
Record history_row : Set := mkHistoryRow {
  hr_taken_at : string;
  hr_name : string;
  hr_dose : string;
  hr_schedule : string
}.

(** The query of [edit_med]. *)
Definition select_med_view (i : Z) (s : db) : option med_view :=
  match select_med i s with
  | Some m => Some (mkMedView m (Meds.time_of_day m))
  | None => None
  end.

(** [SELECT id FROM meds WHERE id = ?], then [fetchone()]. *)
Definition select_id (i : Z) (s : db) : option Z :=
  match select_med i s with
  | Some m => Some (Meds.id m)
  | None => None
  end.

(** [(SELECT MAX(t.taken_at) FROM taken_logs t WHERE t.med_id = m.id)] *)
Definition last_taken_of (m : Meds.row) (s : db) : option string :=
  sql_max (map TakenLogs.taken_at
             (filter (fun t => (TakenLogs.med_id t =? Meds.id m)%Z)
                     (taken_logs s))).

(** [ORDER BY m.time_of_day ASC, m.name ASC] *)
Definition by_schedule_name (a b : Meds.row) : bool :=
  match String.compare (Meds.time_of_day a) (Meds.time_of_day b) with
  | Lt => true
  | Eq => String.leb (Meds.name a) (Meds.name b)
  | Gt => false
  end.

(** The query of [index]. *)
Definition index_query (s : db) : list index_row :=
  map (fun m => mkIndexRow m (Meds.time_of_day m) (last_taken_of m s))
      (order_by by_schedule_name (meds s)).

(** [FROM taken_logs t JOIN meds m ON m.id = t.med_id] *)
Definition logs_join_meds (s : db) : list (TakenLogs.row * Meds.row) :=
  flat_map (fun t =>
              map (fun m => (t, m))
                  (filter (fun m => (Meds.id m =? TakenLogs.med_id t)%Z)
                          (meds s)))
           (taken_logs s).

(** [WHERE date(t.taken_at) = date('now', 'localtime')]: a comparison
    with NULL does not hold. *)
Definition taken_today (now : datetime) (r : TakenLogs.row * Meds.row)
    : bool :=
  match sqlite_date (TakenLogs.taken_at (fst r)) with
  | Some d => String.eqb d (sqlite_today now)
  | None => false
  end.

(** [ORDER BY t.taken_at DESC] *)
Definition by_taken_at_desc (a b : TakenLogs.row * Meds.row) : bool :=
  String.leb (TakenLogs.taken_at (fst b)) (TakenLogs.taken_at (fst a)).

(** The joined rows the two queries of [history] select, before the
    projection on their four columns; [today] tells which of the two. *)
Definition history_select (today : bool) (now : datetime) (s : db)
    : list (TakenLogs.row * Meds.row) :=
  firstn 250
    (order_by by_taken_at_desc
       (if today then filter (taken_today now) (logs_join_meds s)
        else logs_join_meds s)).

(** [SELECT t.taken_at, m.name, m.dose, m.time_of_day AS schedule] *)
Definition history_columns (r : TakenLogs.row * Meds.row) : history_row :=
  mkHistoryRow (TakenLogs.taken_at (fst r)) (Meds.name (snd r))
               (Meds.dose (snd r)) (Meds.time_of_day (snd r)).

Definition history_query (today : bool) (now : datetime) (s : db)
    : list history_row :=
  map history_columns (history_select today now s).

(** ** The handlers *)

(** How a view function ends: with a rendered template and the values
    it is given (the constant page titles are left out), a redirect or
    [abort], or with an exception that nothing catches, which Flask
    answers with status 500. *)
Inductive response : Set :=
| render_index (meds : list index_row)
| render_add_edit (mode : string) (med : option med_view)
| render_history (logs : list history_row) (day : string)
| render_about
| redirect (endpoint : string)
| abort (code : nat)
| raises (exception : string).

(** The effect of one request: the database it leaves, the messages it
    flashes (message, category) and its response. *)
Record outcome : Set := mkOutcome {
  db_after : db;
  flashed : list (string * string);
  response_of : response
}.

(** [index()] *)
Definition index (s : db) : outcome :=
  mkOutcome s [] (render_index (index_query s)).

(** [add_med()] *)
Definition add_med (method : http_method) (form : multidict)
    (now : datetime) (s : db) : outcome :=
  match method with
  | POST =>
      let name := field "name" form in
      let dose := field "dose" form in
      let schedule := field "schedule" form in
      let notes := field "notes" form in
      let (ok, msg) := validate_med_form name dose schedule in
      if negb ok
      then mkOutcome s [(msg, "error")] (render_add_edit "add" None)
      else mkOutcome
             (insert_med name dose schedule (Some notes) (now_iso now) s)
             [("Medication added.", "success")] (redirect "index")
  | GET => mkOutcome s [] (render_add_edit "add" None)
  end.

(** [edit_med(med_id)].  The SELECT is the first statement that binds
    [med_id]; when the id does not fit, it raises before anything else
    happens. *)
Definition edit_med (med_id : Z) (method : http_method) (form : multidict)
    (s : db) : outcome :=
  if fits_int64 med_id then
    match select_med_view med_id s with
    | None => mkOutcome s [] (abort 404)
    | Some med =>
        match method with
        | POST =>
            let name := field "name" form in
            let dose := field "dose" form in
            let schedule := field "schedule" form in
            let notes := field "notes" form in
            let (ok, msg) := validate_med_form name dose schedule in
            if negb ok
            then mkOutcome s [(msg, "error")]
                           (render_add_edit "edit" (Some med))
            else mkOutcome
                   (update_med med_id name dose schedule (Some notes) s)
                   [("Medication updated.", "success")] (redirect "index")
        | GET => mkOutcome s [] (render_add_edit "edit" (Some med))
        end
    end
  else mkOutcome s [] (raises "OverflowError").

(** [mark_taken(med_id)].  The existence check binds [med_id] and raises
    when the id does not fit.  The check mark that opens the success
    message lies outside the code points of the model; the literal holds
    its UTF-8 bytes. *)
Definition mark_taken (med_id : Z) (now : datetime) (s : db) : outcome :=
  if fits_int64 med_id then
    match select_id med_id s with
    | None => mkOutcome s [("Medication not found.", "error")]
                        (redirect "index")
    | Some _ =>
        mkOutcome (insert_log med_id (now_iso now) s)
                  [("✅ Marked as taken.", "success")] (redirect "index")
    end
  else mkOutcome s [] (raises "OverflowError").

(** [delete_med(med_id)].  The first DELETE binds [med_id] and raises
    when the id does not fit; nothing has been written then. *)
Definition delete_med (med_id : Z) (s : db) : outcome :=
  if fits_int64 med_id then
    mkOutcome (delete_med_row med_id (delete_logs med_id s))
              [("Medication deleted.", "success")] (redirect "index")
  else mkOutcome s [] (raises "OverflowError").

(** [history()] *)
Definition history (args : multidict) (now : datetime) (s : db) : outcome :=
  let day := PyStr.lower (PyStr.strip (PyStr.or_empty (md_get "day" args))) in
  let logs :=
    if String.eqb day "today"
    then history_query true now s
    else history_query false now s in
  mkOutcome s [] (render_history logs day).

(** [about()] *)
Definition about (s : db) : outcome := mkOutcome s [] render_about.

(** *** Requests and runs *)

(** The requests the routes accept. *)
Inductive request : Set :=
| req_index
| req_add (method : http_method) (form : multidict)
| req_edit (med_id : Z) (method : http_method) (form : multidict)
| req_take (med_id : Z)
| req_delete (med_id : Z)
| req_history (args : multidict)
| req_about.

Definition handle (r : request) (now : datetime) (s : db) : outcome :=
  match r with
  | req_index => index s
  | req_add method form => add_med method form now s
  | req_edit med_id method form => edit_med med_id method form s
  | req_take med_id => mark_taken med_id now s
  | req_delete med_id => delete_med med_id s
  | req_history args => history args now s
  | req_about => about s
  end.

(** The database after a sequence of requests, each with the clock
    reading it is served at. *)
Fixpoint run (rs : list (request * datetime)) (s : db) : db :=
  match rs with
  | [] => s
  | (r, now) :: rest => run rest (db_after (handle r now s))
  end.

(** * Vocabulary of the properties *)

(** ** The validation rules *)

(** The four rules on the trimmed fields of a medication form. *)
Inductive rule : Set :=
| rule_filled        (* name, dose and schedule are each non-empty *)
| rule_name_length   (* the name has at most 60 characters *)
| rule_dose_length   (* the dose has at most 60 characters *)
| rule_schedule_length. (* the schedule has at most 40 characters *)

Definition rule_holds (r : rule) (name dose schedule : string) : bool :=
  match r with
  | rule_filled =>
      negb (String.eqb name "") && negb (String.eqb dose "")
      && negb (String.eqb schedule "")
  | rule_name_length => (String.length name <=? 60)%nat
  | rule_dose_length => (String.length dose <=? 60)%nat
  | rule_schedule_length => (String.length schedule <=? 40)%nat
  end.

Definition rules_in_order : list rule :=
  [rule_filled; rule_name_length; rule_dose_length; rule_schedule_length].

(** The first rule, in that order, that the fields break. *)
Definition first_failure (name dose schedule : string) : option rule :=
  find (fun r => negb (rule_holds r name dose schedule)) rules_in_order.

(** The message that reports a broken rule. *)
Definition message_of (r : rule) : string :=
  match r with
  | rule_filled => "Please fill in Name, Dose, and Schedule."
  | rule_name_length => "Medication name is too long (max 60 chars)."
  | rule_dose_length => "Dose is too long (max 60 chars)."
  | rule_schedule_length => "Schedule is too long (max 40 chars)."
  end.

(** ** Events and invariants *)

(** The taken events of medication [i]. *)
Definition events_of (i : Z) (s : db) : list TakenLogs.row :=
  filter (fun t => (TakenLogs.med_id t =? i)%Z) (taken_logs s).

(** A required field is filled: it is not empty, also after trimming. *)
Definition filled (x : string) : bool :=
  negb (PyStr.falsy x) && negb (PyStr.falsy (PyStr.strip x)).

(** Every stored medication has its name, dose and schedule filled. *)
Definition required_fields (s : db) : bool :=
  forallb (fun m => filled (Meds.name m) && filled (Meds.dose m)
                    && filled (Meds.time_of_day m))
          (meds s).

(** Every taken event refers to a stored medication. *)
Definition logs_reference_meds (s : db) : bool :=
  forallb (fun t => existsb (fun m => (Meds.id m =? TakenLogs.med_id t)%Z)
                            (meds s))
          (taken_logs s).

(** No event of medication [i] is stamped later than the clock reading
    [now]: the clock has not been set back since they were recorded. *)
Definition events_not_after (now : datetime) (i : Z) (s : db) : bool :=
  forallb (fun t => String.leb (TakenLogs.taken_at t) (now_iso now))
          (events_of i s).

(** The order of ORDER BY m.time_of_day ASC, m.name ASC as a relation:
    an earlier schedule, or the same schedule and a name that is not
    later. *)
Definition schedule_then_name (a b : Meds.row) : Prop :=
  String.compare (Meds.time_of_day a) (Meds.time_of_day b) = Lt
  \/ (Meds.time_of_day a = Meds.time_of_day b
      /\ String.leb (Meds.name a) (Meds.name b) = true).



(** The rows a response of [history] shows. *)
Definition logs_shown (o : outcome) : list history_row :=
  match response_of o with
  | render_history logs _ => logs
  | _ => []
  end.

(** Chronological order of clock readings. *)
Definition datetime_key (d : datetime) : list nat :=
  [year d; month d; day d; hour d; minute d; second d].

Fixpoint key_compare (a b : list nat) : comparison :=
  match a, b with
  | x :: a', y :: b' =>
      match Nat.compare x y with
      | Eq => key_compare a' b'
      | c => c
      end
  | [], [] => Eq
  | [], _ :: _ => Lt
  | _ :: _, [] => Gt
  end.

Definition datetime_compare (a b : datetime) : comparison :=
  key_compare (datetime_key a) (datetime_key b).

Definition datetime_le (a b : datetime) : bool :=
  match datetime_compare a b with
  | Gt => false
  | _ => true
  end.

(** The requests [rs] were served, and [now] is read, by a clock that was
    not set back in between: no request was served later than [now]. *)
Definition clock_not_set_back (rs : list (request * datetime))
    (now : datetime) : bool :=
  valid_datetime now
  && forallb (fun rd => valid_datetime (snd rd) && datetime_le (snd rd) now)
             rs.

(** What an accepted update does to one row of [meds]. *)
Definition updated_by (med_id : Z) (form : multidict) (m m' : Meds.row)
    : Prop :=
  Meds.id m' = Meds.id m
  /\ Meds.created_at m' = Meds.created_at m
  /\ (Meds.id m = med_id ->
      Meds.name m' = field "name" form
      /\ Meds.dose m' = field "dose" form
      /\ Meds.time_of_day m' = field "schedule" form
      /\ Meds.notes m' = Some (field "notes" form))
  /\ (Meds.id m <> med_id -> m' = m).

(** A string of nothing but whitespace. *)
Definition blank (x : string) : Prop :=
  Forall (fun c => PyStr.isspace c = true) (list_ascii_of_string x).

(** The [day] filter as [history] normalises it. *)
Definition normalised_day (args : multidict) : string :=
  PyStr.lower (PyStr.strip (PyStr.or_empty (md_get "day" args))).

(** ** Sample data *)

Definition sample_clock : datetime := mkDatetime 2024 3 5 9 7 1.

Definition aspirin_form : multidict :=
  [("name", " Aspirin "); ("dose", "100mg"); ("schedule", "Morning");
   ("notes", "")].

Definition ibuprofen_form : multidict :=
  [("name", "Ibuprofen"); ("dose", "200mg"); ("schedule", "Evening");
   ("notes", "with food")].

(** A form whose name is nothing but blanks. *)
Definition blank_form : multidict :=
  [("name", "   "); ("dose", "100mg"); ("schedule", "Morning")].

(** One medication, with id 1. *)
Definition db_aspirin : db :=
  run [(req_add POST aspirin_form, sample_clock)] (init_db None).

(** The medication taken twice within the same second. *)
Definition db_taken_twice : db :=
  run [(req_take 1%Z, sample_clock); (req_take 1%Z, sample_clock)]
      db_aspirin.

(** A reading of the clock later on the same day. *)
Definition later_clock : datetime := mkDatetime 2024 3 5 21 30 0.

(** Two readings of a local clock in the night summer time ends: ten to
    two before the clock is set back an hour, ten past one after it. *)
Definition before_set_back : datetime := mkDatetime 2024 11 3 1 50 0.
Definition after_set_back : datetime := mkDatetime 2024 11 3 1 10 0.

(** The medication taken once, before the clock is set back. *)
Definition db_taken_before_set_back : db :=
  run [(req_take 1%Z, before_set_back)] db_aspirin.

(** One medication, taken at seven past nine and again at half past
    nine in the evening of the same day. *)
Definition db_two_doses : db :=
  run [(req_add POST aspirin_form, sample_clock);
       (req_take 1%Z, sample_clock); (req_take 1%Z, later_clock)]
      (init_db None).

(** The least id that does not fit a signed 64-bit integer; the route
    [<int:med_id>] accepts it as it accepts any run of digits. *)
Definition too_large_id : Z := (2 ^ 63)%Z.

(** The requests that lead to [db_taken_twice]. *)
Definition requests_taken_twice : list (request * datetime) :=
  [(req_add POST aspirin_form, sample_clock);
   (req_take 1%Z, sample_clock); (req_take 1%Z, sample_clock)].

(** * Vocabulary of the further properties *)

(** ** Row ids *)

(** No id occurs twice. *)
Fixpoint distinct (ids : list Z) : bool :=
  match ids with
  | [] => true
  | i :: rest => negb (existsb (Z.eqb i) rest) && distinct rest
  end.

(** Every id is positive and at most the AUTOINCREMENT counter. *)
Definition ids_within (ids : list Z) (seq : Z) : bool :=
  forallb (fun i => (0 <? i)%Z && (i <=? seq)%Z) ids.

(** The PRIMARY KEY AUTOINCREMENT columns of both tables are in order:
    ids are unique, positive and not beyond the counter of their table. *)
Definition rowids_ok (s : db) : bool :=
  distinct (map Meds.id (meds s))
  && ids_within (map Meds.id (meds s)) (meds_seq s)
  && distinct (map TakenLogs.id (taken_logs s))
  && ids_within (map TakenLogs.id (taken_logs s)) (taken_logs_seq s).

(** ** Stored text *)

(** A stored text is as [strip] leaves it. *)
Definition trimmed (x : string) : bool := String.eqb (PyStr.strip x) x.

(** The first and the last character of a string. *)
Definition first_char (x : string) : option ascii :=
  match x with
  | EmptyString => None
  | String c _ => Some c
  end.

Fixpoint last_char (x : string) : option ascii :=
  match x with
  | EmptyString => None
  | String c EmptyString => Some c
  | String _ r => last_char r
  end.

(** A medication as an accepted form writes it: the fields inside their
    length limits and trimmed, the notes present and trimmed. *)
Definition med_as_validated (m : Meds.row) : bool :=
  (String.length (Meds.name m) <=? 60)%nat
  && (String.length (Meds.dose m) <=? 60)%nat
  && (String.length (Meds.time_of_day m) <=? 40)%nat
  && trimmed (Meds.name m) && trimmed (Meds.dose m)
  && trimmed (Meds.time_of_day m)
  && match Meds.notes m with
     | Some nt => trimmed nt
     | None => false
     end.

Definition meds_as_validated (s : db) : bool :=
  forallb med_as_validated (meds s).

(** ** Requests by kind *)

Definition is_delete (r : request) : bool :=
  match r with
  | req_delete _ => true
  | _ => false
  end.

(** ** More sample data *)

(** A form whose name is too long and whose dose is missing. *)
Definition long_name_no_dose_form : multidict :=
  [("name", "Acetylsalicylic acid, enteric coated, low dose, once daily, 100 mg");
   ("schedule", "Morning")].

(** Two medications, the first one taken twice. *)
Definition db_two_meds : db :=
  run [(req_add POST ibuprofen_form, later_clock)] db_taken_twice.

(** The requests that lead to [db_two_meds]. *)
Definition requests_two_meds : list (request * datetime) :=
  (requests_taken_twice ++ [(req_add POST ibuprofen_form, later_clock)])%list.

(** * Properties *)

(** ** Strings *)

Lemma lstrip_fixed (s : string) :
  match s with
  | EmptyString => True
  | String c _ => PyStr.isspace c = false
  end ->
  PyStr.lstrip s = s.
Proof.
  destruct s as [|c r]; simpl; [reflexivity|].
  intros ->. reflexivity.
Qed.

Lemma lstrip_head (s : string) :
  match PyStr.lstrip s with
  | EmptyString => True
  | String c _ => PyStr.isspace c = false
  end.
Proof.
  induction s as [|c r IH]; simpl; [exact I|].
  destruct (PyStr.isspace c) eqn:E; [exact IH | exact E].
Qed.

Lemma rstrip_head (s : string) :
  match s with
  | EmptyString => True
  | String c _ => PyStr.isspace c = false
  end ->
  match PyStr.rstrip s with
  | EmptyString => True
  | String c _ => PyStr.isspace c = false
  end.
Proof.
  destruct s as [|c r]; simpl; [trivial|].
  intros E. destruct (PyStr.rstrip r); simpl; [rewrite E|]; simpl; exact E.
Qed.

Lemma rstrip_idempotent (s : string) :
  PyStr.rstrip (PyStr.rstrip s) = PyStr.rstrip s.
Proof.
  induction s as [|c r IH]; simpl; [reflexivity|].
  destruct (PyStr.rstrip r) as [|c' r'] eqn:E.
  - destruct (PyStr.isspace c) eqn:Ec; simpl; [reflexivity|].
    rewrite Ec. reflexivity.
  - change (PyStr.rstrip (String c (String c' r')))
      with (match PyStr.rstrip (String c' r') with
            | EmptyString =>
                if PyStr.isspace c then EmptyString else String c EmptyString
            | String a b => String c (String a b)
            end).
    rewrite IH. reflexivity.
Qed.

(** Trimming a trimmed string changes nothing. *)
Lemma strip_idempotent (s : string) :
  PyStr.strip (PyStr.strip s) = PyStr.strip s.
Proof.
  unfold PyStr.strip.
  rewrite (lstrip_fixed (PyStr.rstrip (PyStr.lstrip s))).
  - apply rstrip_idempotent.
  - apply rstrip_head, lstrip_head.
Qed.

Lemma rstrip_empty (s : string) :
  PyStr.rstrip s = EmptyString <->
  Forall (fun c => PyStr.isspace c = true) (list_ascii_of_string s).
Proof.
  induction s as [|c r IH]; simpl.
  - split; [constructor | reflexivity].
  - destruct (PyStr.rstrip r) eqn:E.
    + destruct (PyStr.isspace c) eqn:Ec; split; intros H.
      * constructor; [exact Ec | apply IH; reflexivity].
      * reflexivity.
      * discriminate.
      * inversion H; congruence.
    + split; intros H; [discriminate|].
      inversion H as [|? ? _ Hr]. apply IH in Hr. discriminate.
Qed.

Lemma lstrip_empty (s : string) :
  PyStr.lstrip s = EmptyString <->
  Forall (fun c => PyStr.isspace c = true) (list_ascii_of_string s).
Proof.
  induction s as [|c r IH]; simpl.
  - split; [constructor | reflexivity].
  - destruct (PyStr.isspace c) eqn:Ec.
    + rewrite IH. split; intros H; [constructor; assumption|].
      inversion H; assumption.
    + split; intros H; [discriminate|]. inversion H; congruence.
Qed.

Lemma lstrip_all_space (s : string) :
  Forall (fun c => PyStr.isspace c = true)
         (list_ascii_of_string (PyStr.lstrip s)) ->
  Forall (fun c => PyStr.isspace c = true) (list_ascii_of_string s).
Proof.
  induction s as [|c r IH]; simpl; [trivial|].
  destruct (PyStr.isspace c) eqn:Ec; simpl; intros H.
  - constructor; [exact Ec | exact (IH H)].
  - exact H.
Qed.

(** A string trims to the empty string exactly when it holds nothing
    but whitespace. *)
Lemma strip_empty (s : string) :
  PyStr.strip s = EmptyString <->
  Forall (fun c => PyStr.isspace c = true) (list_ascii_of_string s).
Proof.
  unfold PyStr.strip. rewrite rstrip_empty. split; intros H.
  - apply lstrip_all_space, H.
  - apply lstrip_empty in H. rewrite H. constructor.
Qed.

Lemma falsy_empty (s : string) : PyStr.falsy s = true <-> s = EmptyString.
Proof. destruct s; simpl; split; congruence. Qed.

(** *** The order of the BINARY collation *)

Lemma ascii_compare_refl (a : ascii) : Ascii.compare a a = Eq.
Proof. apply N.compare_refl. Qed.

Lemma string_compare_refl (s : string) : String.compare s s = Eq.
Proof.
  induction s as [|c r IH]; simpl; [reflexivity|].
  rewrite ascii_compare_refl. exact IH.
Qed.

Lemma string_compare_eq (a b : string) : String.compare a b = Eq <-> a = b.
Proof.
  split; [apply String.compare_eq_iff|]. intros ->. apply string_compare_refl.
Qed.

Lemma string_compare_lt_trans (a b c : string) :
  String.compare a b = Lt -> String.compare b c = Lt ->
  String.compare a c = Lt.
Proof.
  revert b c. induction a as [|x a IH]; intros [|y b] [|z c]; simpl;
    try congruence.
  unfold Ascii.compare.
  destruct (N.compare_spec (N_of_ascii x) (N_of_ascii y)) as [Exy|Lxy|Gxy];
    destruct (N.compare_spec (N_of_ascii y) (N_of_ascii z)) as [Eyz|Lyz|Gyz];
    try congruence; intros Hab Hbc.
  - rewrite Exy, Eyz, N.compare_refl. eapply IH; eassumption.
  - rewrite Exy. apply N.compare_lt_iff in Lyz. rewrite Lyz. reflexivity.
  - rewrite <- Eyz. apply N.compare_lt_iff in Lxy. rewrite Lxy. reflexivity.
  - assert (H : (N_of_ascii x < N_of_ascii z)%N) by lia.
    apply N.compare_lt_iff in H. rewrite H. reflexivity.
Qed.

Lemma string_leb_iff (a b : string) :
  String.leb a b = true <-> String.compare a b = Lt \/ a = b.
Proof.
  unfold String.leb. rewrite <- string_compare_eq.
  destruct (String.compare a b); split; intros H; try reflexivity;
    try discriminate; auto; destruct H; discriminate.
Qed.

Lemma string_leb_refl (a : string) : String.leb a a = true.
Proof. apply string_leb_iff. right. reflexivity. Qed.

Lemma string_leb_trans (a b c : string) :
  String.leb a b = true -> String.leb b c = true -> String.leb a c = true.
Proof.
  rewrite !string_leb_iff. intros [Hab| ->] [Hbc| <-]; auto.
  left. eapply string_compare_lt_trans; eassumption.
Qed.

Lemma string_ltb_leb (a b : string) :
  String.ltb a b = false <-> String.leb b a = true.
Proof.
  unfold String.ltb, String.leb. rewrite (String.compare_antisym a b).
  destruct (String.compare b a); simpl; split; congruence.
Qed.

(** ** ORDER BY, LIMIT and MAX *)

Section OrderByFacts.
Context {A : Type} (before : A -> A -> bool).

Lemma insert_row_perm (x : A) (l : list A) :
  Permutation (x :: l) (insert_row before x l).
Proof.
  induction l as [|y r IH]; simpl; [reflexivity|].
  destruct (before x y); [reflexivity|].
  rewrite perm_swap. apply perm_skip, IH.
Qed.

(** ORDER BY neither drops nor repeats a row. *)
Lemma order_by_perm (l : list A) : Permutation l (order_by before l).
Proof.
  induction l as [|x r IH]; simpl; [reflexivity|].
  rewrite <- insert_row_perm. apply perm_skip, IH.
Qed.

Lemma order_by_in (x : A) (l : list A) :
  In x (order_by before l) <-> In x l.
Proof.
  split; apply Permutation_in;
    [symmetry | idtac]; apply order_by_perm.
Qed.

Hypothesis before_total : forall a b, before a b = true \/ before b a = true.
Hypothesis before_trans :
  forall a b c, before a b = true -> before b c = true -> before a c = true.

Lemma insert_row_sorted (x : A) (l : list A) :
  StronglySorted (fun a b => before a b = true) l ->
  StronglySorted (fun a b => before a b = true) (insert_row before x l).
Proof.
  induction 1 as [|y r Hr IH Hy]; simpl.
  - constructor; constructor.
  - destruct (before x y) eqn:E.
    + constructor; [constructor; assumption|].
      constructor; [exact E|].
      eapply Forall_impl; [|exact Hy]. intros z Hz.
      exact (before_trans _ _ _ E Hz).
    + constructor; [exact IH|].
      assert (Hyx : before y x = true)
        by (destruct (before_total x y); [congruence | assumption]).
      eapply Permutation_Forall; [apply insert_row_perm|].
      constructor; assumption.
Qed.

(** The rows come out in the order asked for. *)
Lemma order_by_sorted (l : list A) :
  StronglySorted (fun a b => before a b = true) (order_by before l).
Proof.
  induction l as [|x r IH]; simpl; [constructor|].
  apply insert_row_sorted, IH.
Qed.
End OrderByFacts.


Lemma firstn_in {A : Type} (n : nat) (l : list A) (x : A) :
  In x (firstn n l) -> In x l.
Proof.
  revert n. induction l as [|y r IH]; intros [|n]; simpl; try tauto.
  intros [H|H]; [left; exact H | right; exact (IH _ H)].
Qed.

(** MAX is NULL on no rows and otherwise a greatest one of them. *)
Lemma sql_max_none (l : list string) : sql_max l = None <-> l = [].
Proof.
  destruct l as [|x r]; simpl; [tauto|].
  destruct (sql_max r); split; discriminate.
Qed.

Lemma sql_max_some (l : list string) (m : string) :
  sql_max l = Some m ->
  In m l /\ Forall (fun x => String.leb x m = true) l.
Proof.
  revert m. induction l as [|x r IH]; simpl; [discriminate|].
  intros m. destruct (sql_max r) as [m'|] eqn:E.
  - destruct (IH m' eq_refl) as [Hin Hall].
    destruct (String.ltb m' x) eqn:L; intros [= <-].
    + split; [left; reflexivity|].
      assert (Hm : String.leb m' x = true).
      { apply string_leb_iff. left. unfold String.ltb in L.
        destruct (String.compare m' x); congruence. }
      constructor; [apply string_leb_refl|].
      eapply Forall_impl; [|exact Hall]. intros y Hy. simpl in Hy.
      exact (string_leb_trans _ _ _ Hy Hm).
    + split; [right; exact Hin|].
      constructor; [apply string_ltb_leb; exact L | exact Hall].
  - apply sql_max_none in E. subst r. intros [= <-].
    split; [left; reflexivity|].
    constructor; [apply string_leb_refl | constructor].
Qed.

(** ** Validation *)

(** [validate_med_form] reports the first broken rule, and accepts when
    no rule is broken. *)
Lemma validate_med_form_spec (name dose schedule : string) :
  validate_med_form name dose schedule =
  match first_failure name dose schedule with
  | Some r => (false, message_of r)
  | None => (true, "")
  end.
Proof.
  unfold validate_med_form, first_failure. simpl.
  destruct name as [|a name]; [reflexivity|].
  destruct dose as [|b dose]; [reflexivity|].
  destruct schedule as [|c schedule]; [reflexivity|].
  cbn [PyStr.falsy orb String.eqb negb andb].
  rewrite !Nat.ltb_antisym.
  destruct (String.length (String a name) <=? 60)%nat; [|reflexivity].
  destruct (String.length (String b dose) <=? 60)%nat; [|reflexivity].
  destruct (String.length (String c schedule) <=? 40)%nat; reflexivity.
Qed.

(** A rule is reported only when the rules before it hold. *)
Lemma first_failure_order (name dose schedule : string) (r : rule) :
  first_failure name dose schedule = Some r ->
  rule_holds r name dose schedule = false
  /\ exists before after,
       rules_in_order = (before ++ r :: after)%list
       /\ Forall (fun r' => rule_holds r' name dose schedule = true) before.
Proof.
  unfold first_failure, rules_in_order. cbn [find].
  destruct (rule_holds rule_filled name dose schedule) eqn:E1; cbn [negb].
  2:{ intros [= <-]. split; [exact E1|]. exists [], [rule_name_length; rule_dose_length; rule_schedule_length].
      auto. }
  destruct (rule_holds rule_name_length name dose schedule) eqn:E2;
    cbn [negb].
  2:{ intros [= <-]. split; [exact E2|]. exists [rule_filled], [rule_dose_length; rule_schedule_length]. auto. }
  destruct (rule_holds rule_dose_length name dose schedule) eqn:E3;
    cbn [negb].
  2:{ intros [= <-]. split; [exact E3|]. exists [rule_filled; rule_name_length], [rule_schedule_length].
      auto. }
  destruct (rule_holds rule_schedule_length name dose schedule) eqn:E4;
    cbn [negb].
  2:{ intros [= <-]. split; [exact E4|]. exists [rule_filled; rule_name_length; rule_dose_length], [].
      auto. }
  discriminate.
Qed.

Lemma message_of_injective (r r' : rule) :
  message_of r = message_of r' -> r = r'.
Proof. destruct r, r'; simpl; intros H; try reflexivity; discriminate. Qed.

(** A field is empty after trimming exactly when it was not submitted
    or holds nothing but whitespace. *)
Lemma field_empty (key : string) (form : multidict) :
  field key form = "" <->
  match md_get key form with
  | Some raw => blank raw
  | None => True
  end.
Proof.
  unfold field, blank. rewrite strip_empty.
  destruct (md_get key form); simpl; [tauto|].
  split; [trivial | constructor].
Qed.

(** C1, as the code has it. Validation of a create request, and of an
    update request once its medication is found, applies the four rules
    to the trimmed fields in their order, the first broken rule winning:
    the rule reported is broken and the rules before it hold.  The request
    then flashes the one message of that rule (each rule has a message of
    its own) and leaves the database as it was.  An update whose id names
    no stored medication does not get to validation: it flashes no
    message, and it writes nothing either. *)
Theorem validation_first_failure_wins (form : multidict) (now : datetime)
    (s : db) (med_id : Z) (r : rule) :
  first_failure (field "name" form) (field "dose" form)
                (field "schedule" form) = Some r ->
  (rule_holds r (field "name" form) (field "dose" form)
              (field "schedule" form) = false
   /\ exists before after,
        rules_in_order = (before ++ r :: after)%list
        /\ Forall (fun r' => rule_holds r' (field "name" form)
                               (field "dose" form) (field "schedule" form)
                             = true) before)
  /\ validate_med_form (field "name" form) (field "dose" form)
                       (field "schedule" form) = (false, message_of r)
  /\ (forall r', message_of r' = message_of r -> r' = r)
  /\ add_med POST form now s =
     mkOutcome s [(message_of r, "error")] (render_add_edit "add" None)
  /\ (forall med,
        fits_int64 med_id = true ->
        select_med_view med_id s = Some med ->
        edit_med med_id POST form s =
        mkOutcome s [(message_of r, "error")]
                  (render_add_edit "edit" (Some med)))
  /\ (select_med_view med_id s = None ->
      flashed (edit_med med_id POST form s) = [])
  /\ db_after (edit_med med_id POST form s) = s.
Proof.
  intros H. split; [apply first_failure_order, H|].
  assert (V := validate_med_form_spec (field "name" form)
                 (field "dose" form) (field "schedule" form)).
  rewrite H in V. split; [exact V|].
  split; [intros r'; apply message_of_injective|].
  unfold add_med, edit_med. rewrite V. simpl.
  split; [reflexivity|]. split; [|split].
  - intros med -> ->. reflexivity.
  - intros ->. destruct (fits_int64 med_id); reflexivity.
  - destruct (fits_int64 med_id); [|reflexivity].
    destruct (select_med_view med_id s); reflexivity.
Qed.

Lemma validation_first_failure_wins_witness :
  first_failure (field "name" blank_form) (field "dose" blank_form)
                (field "schedule" blank_form) = Some rule_filled
  /\ add_med POST blank_form sample_clock db_aspirin =
     mkOutcome db_aspirin
               [("Please fill in Name, Dose, and Schedule.", "error")]
               (render_add_edit "add" None)
  /\ edit_med 1%Z POST blank_form db_aspirin =
     mkOutcome db_aspirin
               [("Please fill in Name, Dose, and Schedule.", "error")]
               (render_add_edit "edit"
                  (Some (mkMedView
                           (Meds.mk 1 "Aspirin" "100mg" "Morning" (Some "")
                                    "2024-03-05T09:07:01")
                           "Morning"))).
Proof.
  split; [reflexivity|].
  destruct (validation_first_failure_wins blank_form sample_clock db_aspirin
              1%Z rule_filled eq_refl) as (_ & _ & _ & H & H' & _).
  split; [exact H | apply H'; reflexivity].
Defined.

(** An update of an id that names no medication, with a blank name: the
    first rule is broken, and the request flashes no message at all. *)
Lemma update_of_missing_id_flashes_no_message :
  first_failure (field "name" blank_form) (field "dose" blank_form)
                (field "schedule" blank_form) = Some rule_filled
  /\ select_med 7%Z db_aspirin = None
  /\ edit_med 7%Z POST blank_form db_aspirin =
     mkOutcome db_aspirin [] (abort 404)
  /\ ~ In (message_of rule_filled, "error")
          (flashed (edit_med 7%Z POST blank_form db_aspirin)).
Proof.
  split; [reflexivity|]. split; [reflexivity|]. split; [reflexivity|].
  intros [].
Qed.

(** ** Tables *)

Lemma db_eta (s : db) :
  mkDb (meds s) (taken_logs s) (meds_seq s) (taken_logs_seq s) = s.
Proof. destruct s; reflexivity. Qed.

Lemma filter_all {A : Type} (f : A -> bool) (l : list A) :
  (forall x, In x l -> f x = true) -> filter f l = l.
Proof.
  induction l as [|x r IH]; simpl; intros H; [reflexivity|].
  rewrite (H x (or_introl eq_refl)). f_equal. apply IH. auto.
Qed.

Lemma filter_split_length {A : Type} (f : A -> bool) (l : list A) :
  length (filter (fun x => negb (f x)) l) + length (filter f l) = length l.
Proof.
  induction l as [|x r IH]; simpl; [reflexivity|].
  destruct (f x); simpl; lia.
Qed.

Lemma select_med_some (i : Z) (s : db) (m : Meds.row) :
  select_med i s = Some m -> In m (meds s) /\ Meds.id m = i.
Proof.
  unfold select_med. intros H. apply find_some in H.
  destruct H as [Hin He]. split; [exact Hin | lia].
Qed.

Lemma select_med_none (i : Z) (s : db) :
  select_med i s = None <-> (forall m, In m (meds s) -> Meds.id m <> i).
Proof.
  unfold select_med. split.
  - intros H m Hin. apply (find_none _ _ H) in Hin. lia.
  - intros H. destruct (find _ _) as [m|] eqn:E; [|reflexivity].
    apply find_some in E. destruct E as [Hin He].
    exfalso. apply (H m Hin). lia.
Qed.

Lemma select_med_view_none (i : Z) (s : db) :
  select_med_view i s = None <-> select_med i s = None.
Proof.
  unfold select_med_view. destruct (select_med i s); split; congruence.
Qed.

Lemma select_id_spec (i : Z) (s : db) :
  select_id i s = match select_med i s with
                  | Some _ => Some i
                  | None => None
                  end.
Proof.
  unfold select_id. destruct (select_med i s) as [m|] eqn:E; [|reflexivity].
  apply select_med_some in E. destruct E as [_ ->]. reflexivity.
Qed.

(** A request with an id that does not fit raises and writes nothing. *)
Lemma edit_med_unfit (i : Z) (method : http_method) (form : multidict)
    (s : db) :
  fits_int64 i = false ->
  edit_med i method form s = mkOutcome s [] (raises "OverflowError").
Proof. unfold edit_med. intros ->. reflexivity. Qed.

Lemma mark_taken_unfit (i : Z) (now : datetime) (s : db) :
  fits_int64 i = false ->
  mark_taken i now s = mkOutcome s [] (raises "OverflowError").
Proof. unfold mark_taken. intros ->. reflexivity. Qed.

Lemma delete_med_unfit (i : Z) (s : db) :
  fits_int64 i = false ->
  delete_med i s = mkOutcome s [] (raises "OverflowError").
Proof. unfold delete_med. intros ->. reflexivity. Qed.

Lemma delete_med_fits (i : Z) (s : db) :
  fits_int64 i = true ->
  delete_med i s =
  mkOutcome (delete_med_row i (delete_logs i s))
            [("Medication deleted.", "success")] (redirect "index").
Proof. unfold delete_med. intros ->. reflexivity. Qed.

(** The rows [history] selects are joined rows of the two tables, and
    with the [today] filter they pass it. *)
Lemma history_select_in (today : bool) (now : datetime) (s : db)
    (r : TakenLogs.row * Meds.row) :
  In r (history_select today now s) ->
  In (fst r) (taken_logs s) /\ In (snd r) (meds s)
  /\ Meds.id (snd r) = TakenLogs.med_id (fst r)
  /\ (today = true -> taken_today now r = true).
Proof.
  unfold history_select. intros H.
  apply firstn_in, order_by_in in H.
  assert (J : In r (logs_join_meds s)
              /\ (today = true -> taken_today now r = true)).
  { destruct today.
    - apply filter_In in H. tauto.
    - split; [exact H | discriminate]. }
  destruct J as [J T]. unfold logs_join_meds in J.
  apply in_flat_map in J. destruct J as (t & Ht & J).
  apply in_map_iff in J. destruct J as (m & <- & Hm).
  apply filter_In in Hm. destruct Hm as [Hm He]. simpl.
  repeat split; auto. lia.
Qed.

(** ** Deleting a medication *)

(** C2. Deleting medication [med_id], which has N taken events, removes the
    medication and exactly those N events and keeps every other row; no
    row that [history] selects afterwards, with or without the today
    filter, comes from one of the removed events.  The id is one SQLite
    can bind, as the id of every stored medication is. *)
Theorem delete_removes_med_and_events (med_id : Z) (s : db) :
  fits_int64 med_id = true ->
  let s' := db_after (delete_med med_id s) in
  (forall m, In m (meds s') <-> In m (meds s) /\ Meds.id m <> med_id)
  /\ (forall t, In t (taken_logs s') <->
                In t (taken_logs s) /\ ~ In t (events_of med_id s))
  /\ length (taken_logs s') + length (events_of med_id s)
     = length (taken_logs s)
  /\ (forall today now r,
        In r (history_select today now s') ->
        ~ In (fst r) (events_of med_id s)
        /\ TakenLogs.med_id (fst r) <> med_id).
Proof.
  intros Fit. cbn zeta. rewrite (delete_med_fits med_id s Fit).
  unfold delete_med_row, delete_logs, events_of.
  cbn [db_after meds taken_logs].
  assert (L : forall t,
             In t (filter (fun t => negb (TakenLogs.med_id t =? med_id)%Z)
                          (taken_logs s)) <->
             In t (taken_logs s)
             /\ ~ In t (filter (fun t => (TakenLogs.med_id t =? med_id)%Z)
                               (taken_logs s))).
  { intros t. rewrite !filter_In.
    destruct (TakenLogs.med_id t =? med_id)%Z; simpl; intuition congruence. }
  split; [|split; [exact L|split]].
  - intros m. rewrite filter_In.
    destruct (Z.eqb_spec (Meds.id m) med_id); simpl; intuition congruence.
  - apply (filter_split_length
             (fun t => (TakenLogs.med_id t =? med_id)%Z)).
  - intros today now r H. apply history_select_in in H.
    destruct H as (H & _). cbn [taken_logs] in H.
    apply L in H. destruct H as [Hin Hno]. split; [exact Hno|].
    intros E. apply Hno. apply filter_In. split; [exact Hin|].
    apply Z.eqb_eq, E.
Qed.

Lemma delete_removes_med_and_events_witness :
  fits_int64 1%Z = true
  /\ length (events_of 1%Z db_two_meds) = 2
  /\ length (taken_logs (db_after (delete_med 1%Z db_two_meds))) + 2
     = length (taken_logs db_two_meds).
Proof.
  split; [reflexivity|]. split; [reflexivity|].
  destruct (delete_removes_med_and_events 1%Z db_two_meds eq_refl)
    as (_ & _ & H & _).
  exact H.
Defined.

Lemma delete_missing_unchanged (med_id : Z) (s : db) :
  fits_int64 med_id = true ->
  logs_reference_meds s = true ->
  select_med med_id s = None ->
  delete_med med_id s =
  mkOutcome s [("Medication deleted.", "success")] (redirect "index").
Proof.
  intros Fit R N. rewrite (delete_med_fits med_id s Fit).
  unfold delete_med_row, delete_logs.
  cbn [meds taken_logs meds_seq taken_logs_seq].
  rewrite select_med_none in N.
  assert (Hl : filter (fun t => negb (TakenLogs.med_id t =? med_id)%Z)
                      (taken_logs s) = taken_logs s).
  { apply filter_all. intros t Ht. apply negb_true_iff, Z.eqb_neq.
    intros E. unfold logs_reference_meds in R. rewrite forallb_forall in R.
    specialize (R t Ht). apply existsb_exists in R.
    destruct R as (m & Hm & He). apply (N m Hm). lia. }
  assert (Hm : filter (fun m => negb (Meds.id m =? med_id)%Z) (meds s)
               = meds s).
  { apply filter_all. intros m Hm. apply negb_true_iff, Z.eqb_neq, N, Hm. }
  rewrite Hl, Hm, db_eta. reflexivity.
Qed.

Lemma logs_reference_meds_spec (s : db) :
  logs_reference_meds s = true <->
  forall t, In t (taken_logs s) ->
            exists m, In m (meds s) /\ Meds.id m = TakenLogs.med_id t.
Proof.
  unfold logs_reference_meds. rewrite forallb_forall.
  split; intros H t Ht; specialize (H t Ht).
  - apply existsb_exists in H. destruct H as (m & Hm & He).
    exists m. split; [exact Hm | lia].
  - apply existsb_exists. destruct H as (m & Hm & He).
    exists m. split; [exact Hm | lia].
Qed.

(** Every request keeps the events referring to stored medications. *)
Lemma handle_logs_reference_meds (r : request) (now : datetime) (s : db) :
  logs_reference_meds s = true ->
  logs_reference_meds (db_after (handle r now s)) = true.
Proof.
  intros I. destruct r as [|method form|i method form|i|i|args|];
    cbn [handle]; try exact I.
  - unfold add_med. destruct method; [exact I|].
    destruct (validate_med_form _ _ _) as [[|] msg]; cbn [negb db_after];
      [|exact I].
    rewrite logs_reference_meds_spec in *. cbn [insert_med meds taken_logs].
    intros t Ht. destruct (I t Ht) as (m & Hm & He).
    exists m. split; [apply in_or_app; left; exact Hm | exact He].
  - unfold edit_med. destruct (fits_int64 i); [|exact I].
    destruct (select_med_view i s) as [view|]; [|exact I].
    destruct method; [exact I|].
    destruct (validate_med_form _ _ _) as [[|] msg]; cbn [negb db_after];
      [|exact I].
    rewrite logs_reference_meds_spec in *. cbn [update_med meds taken_logs].
    intros t Ht. destruct (I t Ht) as (m & Hm & He).
    eexists. split; [apply in_map, Hm|].
    destruct (Meds.id m =? i)%Z; exact He.
  - unfold mark_taken. destruct (fits_int64 i); [|exact I].
    rewrite select_id_spec.
    destruct (select_med i s) as [m|] eqn:E; [|exact I].
    apply select_med_some in E. destruct E as [Hm He].
    rewrite logs_reference_meds_spec in *.
    cbn [db_after insert_log meds taken_logs]. intros t Ht.
    apply in_app_or in Ht. destruct Ht as [Ht|[<-|[]]]; [exact (I t Ht)|].
    exists m. split; [exact Hm | exact He].
  - unfold delete_med. destruct (fits_int64 i); [|exact I].
    rewrite logs_reference_meds_spec in *.
    cbn [db_after delete_med_row delete_logs meds taken_logs].
    intros t Ht. apply filter_In in Ht. destruct Ht as [Ht Hne].
    destruct (I t Ht) as (m & Hm & He). exists m. split; [|exact He].
    apply filter_In. split; [exact Hm|]. rewrite He. exact Hne.
Qed.

Lemma run_logs_reference_meds (rs : list (request * datetime)) (s : db) :
  logs_reference_meds s = true -> logs_reference_meds (run rs s) = true.
Proof.
  revert s. induction rs as [|[r now] rest IH]; intros s I; simpl;
    [exact I|].
  apply IH, handle_logs_reference_meds, I.
Qed.

(** C7, as the code has it. In the database after any run of requests
    from the fresh one, deleting an id that names no stored medication
    and fits a signed 64-bit integer does not fail: it reports success
    and leaves both tables, and the id counters, as they were.  An id
    that does not fit makes the first DELETE raise [OverflowError]: the
    request reports nothing, and the database is as it was as well. *)
Theorem delete_missing_is_noop (rs : list (request * datetime))
    (med_id : Z) :
  select_med med_id (run rs (init_db None)) = None ->
  (fits_int64 med_id = true ->
   delete_med med_id (run rs (init_db None)) =
   mkOutcome (run rs (init_db None))
             [("Medication deleted.", "success")] (redirect "index"))
  /\ (fits_int64 med_id = false ->
      delete_med med_id (run rs (init_db None)) =
      mkOutcome (run rs (init_db None)) [] (raises "OverflowError"))
  /\ db_after (delete_med med_id (run rs (init_db None)))
     = run rs (init_db None).
Proof.
  intros N.
  assert (F : fits_int64 med_id = true ->
              delete_med med_id (run rs (init_db None)) =
              mkOutcome (run rs (init_db None))
                        [("Medication deleted.", "success")]
                        (redirect "index")).
  { intros Fit. apply delete_missing_unchanged; [exact Fit | | exact N].
    apply run_logs_reference_meds. reflexivity. }
  split; [exact F|]. split; [apply delete_med_unfit|].
  destruct (fits_int64 med_id) eqn:Fit.
  - rewrite (F eq_refl). reflexivity.
  - rewrite (delete_med_unfit _ _ Fit). reflexivity.
Qed.

Lemma delete_missing_is_noop_witness :
  select_med 7%Z (run requests_taken_twice (init_db None)) = None
  /\ fits_int64 7%Z = true
  /\ delete_med 7%Z (run requests_taken_twice (init_db None)) =
     mkOutcome db_taken_twice [("Medication deleted.", "success")]
               (redirect "index").
Proof.
  split; [reflexivity|]. split; [reflexivity|].
  destruct (delete_missing_is_noop requests_taken_twice 7%Z eq_refl)
    as [H _].
  exact (H eq_refl).
Defined.

(** Deleting the id 2^63, which the route accepts and which names no
    medication: the request raises instead of reporting success. *)
Lemma delete_of_too_large_id_raises :
  select_med too_large_id (run requests_taken_twice (init_db None)) = None
  /\ delete_med too_large_id (run requests_taken_twice (init_db None)) =
     mkOutcome (run requests_taken_twice (init_db None)) []
               (raises "OverflowError")
  /\ flashed (delete_med too_large_id
                         (run requests_taken_twice (init_db None)))
     <> [("Medication deleted.", "success")].
Proof.
  split; [reflexivity|]. split; [reflexivity|]. discriminate.
Qed.

(** ** Editing a medication *)

(** C9, as the code has it. Editing an id that names no stored medication
    and fits a signed 64-bit integer aborts with 404 whatever the method
    and the submitted fields are, valid or not; it flashes nothing and
    writes nothing.  An id that does not fit makes the lookup raise
    [OverflowError] instead, likewise before validation and without a
    flash or a write. *)
Theorem edit_missing_is_not_found (med_id : Z) (method : http_method)
    (form : multidict) (s : db) :
  select_med med_id s = None ->
  (fits_int64 med_id = true ->
   edit_med med_id method form s = mkOutcome s [] (abort 404))
  /\ (fits_int64 med_id = false ->
      edit_med med_id method form s =
      mkOutcome s [] (raises "OverflowError")).
Proof.
  intros N. split; [|apply edit_med_unfit].
  intros Fit. unfold edit_med. rewrite Fit.
  apply select_med_view_none in N. rewrite N. reflexivity.
Qed.

Lemma edit_missing_is_not_found_witness :
  select_med 7%Z db_aspirin = None
  /\ fits_int64 7%Z = true
  /\ first_failure (field "name" blank_form) (field "dose" blank_form)
                   (field "schedule" blank_form) = Some rule_filled
  /\ edit_med 7%Z POST blank_form db_aspirin =
     mkOutcome db_aspirin [] (abort 404).
Proof.
  split; [reflexivity|]. split; [reflexivity|]. split; [reflexivity|].
  destruct (edit_missing_is_not_found 7%Z POST blank_form db_aspirin
              eq_refl) as [H _].
  exact (H eq_refl).
Defined.

(** Editing the id 2^63, which the route accepts and which names no
    medication: the request raises, it does not abort with 404. *)
Lemma edit_of_too_large_id_raises :
  select_med too_large_id db_aspirin = None
  /\ edit_med too_large_id POST blank_form db_aspirin =
     mkOutcome db_aspirin [] (raises "OverflowError")
  /\ response_of (edit_med too_large_id POST blank_form db_aspirin)
     <> abort 404.
Proof.
  split; [reflexivity|]. split; [reflexivity|]. discriminate.
Qed.

(** C6. An update of a stored medication leaves the id and the creation
    time of every row, the rows of other ids, the taken events and the id
    counters as they were; when the form is accepted it overwrites the
    name, dose, schedule and notes of the medication by the trimmed
    fields of the form, and it changes nothing when the form is
    rejected.  The id is one SQLite can bind, as the id of every stored
    medication is. *)
Theorem edit_changes_only_mutable_fields (med_id : Z) (form : multidict)
    (s : db) (m : Meds.row) :
  fits_int64 med_id = true ->
  select_med med_id s = Some m ->
  let o := edit_med med_id POST form s in
  Forall2 (fun m m' => Meds.id m' = Meds.id m
                       /\ Meds.created_at m' = Meds.created_at m
                       /\ (Meds.id m <> med_id -> m' = m))
          (meds s) (meds (db_after o))
  /\ taken_logs (db_after o) = taken_logs s
  /\ meds_seq (db_after o) = meds_seq s
  /\ taken_logs_seq (db_after o) = taken_logs_seq s
  /\ match first_failure (field "name" form) (field "dose" form)
                         (field "schedule" form) with
     | None =>
         flashed o = [("Medication updated.", "success")]
         /\ response_of o = redirect "index"
         /\ Forall2 (updated_by med_id form) (meds s) (meds (db_after o))
     | Some _ => db_after o = s
     end.
Proof.
  intros Fit Hm. cbn zeta. unfold edit_med, select_med_view.
  rewrite Fit, Hm, validate_med_form_spec.
  destruct (first_failure _ _ _) as [r|]; cbn.
  - repeat split. induction (meds s) as [|x l IH]; constructor; auto.
  - repeat split.
    + induction (meds s) as [|x l IH]; simpl; constructor; [|exact IH].
      destruct (Z.eqb_spec (Meds.id x) med_id) as [E|E]; simpl;
        repeat split; try reflexivity; congruence.
    + induction (meds s) as [|x l IH]; simpl; constructor; [|exact IH].
      unfold updated_by.
      destruct (Z.eqb_spec (Meds.id x) med_id) as [E|E]; simpl;
        repeat split; try reflexivity; congruence.
Qed.

Lemma edit_changes_only_mutable_fields_witness :
  fits_int64 1%Z = true
  /\ select_med 1%Z db_taken_twice <> None
  /\ taken_logs (db_after (edit_med 1%Z POST ibuprofen_form db_taken_twice))
     = taken_logs db_taken_twice.
Proof.
  split; [reflexivity|]. split; [discriminate|].
  destruct (edit_changes_only_mutable_fields 1%Z ibuprofen_form
              db_taken_twice
              (Meds.mk 1 "Aspirin" "100mg" "Morning" (Some "")
                       "2024-03-05T09:07:01")
              eq_refl eq_refl) as (_ & H & _).
  exact H.
Defined.

(** ** The required fields *)

Lemma field_filled (key : string) (form : multidict) :
  PyStr.falsy (field key form) = false -> filled (field key form) = true.
Proof.
  intros H. unfold filled, field in *.
  rewrite strip_idempotent, H. reflexivity.
Qed.

Lemma filled_spec (x : string) :
  filled x = true <-> x <> EmptyString /\ PyStr.strip x <> EmptyString.
Proof.
  unfold filled. rewrite andb_true_iff, !negb_true_iff.
  rewrite <- !falsy_empty.
  destruct (PyStr.falsy x), (PyStr.falsy (PyStr.strip x));
    intuition congruence.
Qed.

Lemma validate_ok_filled (form : multidict) (msg : string) :
  validate_med_form (field "name" form) (field "dose" form)
                    (field "schedule" form) = (true, msg) ->
  filled (field "name" form) && filled (field "dose" form)
  && filled (field "schedule" form) = true.
Proof.
  unfold validate_med_form.
  destruct (PyStr.falsy (field "name" form)) eqn:E1; [discriminate|].
  destruct (PyStr.falsy (field "dose" form)) eqn:E2; [discriminate|].
  destruct (PyStr.falsy (field "schedule" form)) eqn:E3; [discriminate|].
  intros _. rewrite !field_filled by assumption. reflexivity.
Qed.

Lemma handle_required_fields (r : request) (now : datetime) (s : db) :
  required_fields s = true ->
  required_fields (db_after (handle r now s)) = true.
Proof.
  intros I. destruct r as [|method form|i method form|i|i|args|];
    cbn [handle]; try exact I.
  - unfold add_med. destruct method; [exact I|].
    destruct (validate_med_form _ _ _) as [[|] msg] eqn:V; cbn; [|exact I].
    unfold required_fields, insert_med in *. cbn [meds].
    rewrite forallb_app, I. cbn [forallb Meds.name Meds.dose
                                   Meds.time_of_day].
    rewrite (validate_ok_filled _ _ V). reflexivity.
  - unfold edit_med. destruct (fits_int64 i); [|exact I].
    destruct (select_med_view i s) as [view|]; [|exact I].
    destruct method; [exact I|].
    destruct (validate_med_form _ _ _) as [[|] msg] eqn:V; cbn; [|exact I].
    apply validate_ok_filled in V.
    unfold required_fields in *. rewrite forallb_forall in *.
    intros m' Hm'. apply in_map_iff in Hm'. destruct Hm' as (m & <- & Hm).
    destruct (Meds.id m =? i)%Z; [exact V | exact (I m Hm)].
  - unfold mark_taken. destruct (fits_int64 i); [|exact I].
    destruct (select_id i s); exact I.
  - unfold delete_med. destruct (fits_int64 i); [|exact I].
    unfold required_fields in *. cbn [db_after meds delete_logs
                                                  delete_med_row].
    rewrite forallb_forall in *. intros m Hm.
    apply filter_In in Hm. apply I, Hm.
Qed.

Lemma run_required_fields (rs : list (request * datetime)) (s : db) :
  required_fields s = true -> required_fields (run rs s) = true.
Proof.
  revert s. induction rs as [|[r now] rest IH]; intros s I; simpl;
    [exact I|].
  apply IH, handle_required_fields, I.
Qed.

(** C8. Every medication stored has a name, a dose and a schedule that
    are non-empty, also after trimming: this holds in the fresh database,
    every request (create, update, delete, mark taken and the read-only
    ones) preserves it, and so it holds after every run of requests. *)
Theorem required_fields_invariant :
  required_fields (init_db None) = true
  /\ (forall r now s,
        required_fields s = true ->
        required_fields (db_after (handle r now s)) = true)
  /\ (forall rs, required_fields (run rs (init_db None)) = true)
  /\ (forall s m,
        required_fields s = true -> In m (meds s) ->
        (Meds.name m <> "" /\ PyStr.strip (Meds.name m) <> "")
        /\ (Meds.dose m <> "" /\ PyStr.strip (Meds.dose m) <> "")
        /\ (Meds.time_of_day m <> ""
            /\ PyStr.strip (Meds.time_of_day m) <> "")).
Proof.
  split; [reflexivity|]. split; [exact handle_required_fields|].
  split; [intros rs; apply run_required_fields; reflexivity|].
  intros s m I Hm. unfold required_fields in I.
  rewrite forallb_forall in I. specialize (I m Hm).
  rewrite !andb_true_iff, !filled_spec in I. tauto.
Qed.

Lemma required_fields_invariant_witness :
  required_fields db_aspirin = true
  /\ required_fields
       (db_after (handle (req_edit 1%Z POST ibuprofen_form) sample_clock
                         db_aspirin)) = true.
Proof.
  split; [reflexivity|].
  destruct required_fields_invariant as (_ & H & _).
  apply (H (req_edit 1%Z POST ibuprofen_form) sample_clock db_aspirin).
  reflexivity.
Defined.

(** ** Listing the medications *)

Lemma by_schedule_name_spec (a b : Meds.row) :
  by_schedule_name a b = true <-> schedule_then_name a b.
Proof.
  unfold by_schedule_name, schedule_then_name.
  destruct (String.compare (Meds.time_of_day a) (Meds.time_of_day b)) eqn:E.
  - apply string_compare_eq in E. intuition discriminate.
  - intuition.
  - split; [discriminate|]. intros [H|[H _]]; [discriminate|].
    apply string_compare_eq in H. congruence.
Qed.

Lemma by_schedule_name_total (a b : Meds.row) :
  by_schedule_name a b = true \/ by_schedule_name b a = true.
Proof.
  unfold by_schedule_name.
  rewrite (String.compare_antisym (Meds.time_of_day b) (Meds.time_of_day a)).
  destruct (String.compare (Meds.time_of_day a) (Meds.time_of_day b));
    simpl; auto.
  apply String.leb_total.
Qed.

Lemma by_schedule_name_trans (a b c : Meds.row) :
  by_schedule_name a b = true -> by_schedule_name b c = true ->
  by_schedule_name a c = true.
Proof.
  rewrite !by_schedule_name_spec. unfold schedule_then_name.
  intros [L1|[E1 N1]] [L2|[E2 N2]].
  - left. eapply string_compare_lt_trans; eassumption.
  - left. rewrite <- E2. exact L1.
  - left. rewrite E1. exact L2.
  - right. split; [congruence|]. eapply string_leb_trans; eassumption.
Qed.

Lemma strongly_sorted_map {A B : Type} (f : A -> B) (R : B -> B -> Prop)
    (l : list A) :
  StronglySorted (fun a b => R (f a) (f b)) l -> StronglySorted R (map f l).
Proof.
  induction 1 as [|x r Hr IH Hx]; simpl; constructor; [exact IH|].
  apply Forall_map. exact Hx.
Qed.

Lemma strongly_sorted_impl {A : Type} (R R' : A -> A -> Prop) (l : list A) :
  (forall a b, R a b -> R' a b) ->
  StronglySorted R l -> StronglySorted R' l.
Proof.
  intros H. induction 1 as [|x r Hr IH Hx]; constructor; [exact IH|].
  eapply Forall_impl; [|exact Hx]. intros b. apply H.
Qed.

Lemma last_taken_of_spec (m : Meds.row) (s : db) :
  match last_taken_of m s with
  | None => events_of (Meds.id m) s = []
  | Some ts =>
      (exists t, In t (events_of (Meds.id m) s) /\ TakenLogs.taken_at t = ts)
      /\ (forall t, In t (events_of (Meds.id m) s) ->
                    String.leb (TakenLogs.taken_at t) ts = true)
  end.
Proof.
  unfold last_taken_of. fold (events_of (Meds.id m) s).
  destruct (sql_max _) as [ts|] eqn:E.
  - apply sql_max_some in E. destruct E as [Hin Hall]. split.
    + apply in_map_iff in Hin. destruct Hin as (t & Ht & Hin). eauto.
    + intros t Ht. rewrite Forall_forall in Hall. apply Hall.
      apply in_map, Ht.
  - apply sql_max_none in E. apply map_eq_nil in E. exact E.
Qed.

(** ** Timestamps *)

Lemma nat_of_digit (n : nat) : nat_of_ascii (digit n) = 48 + n mod 10.
Proof.
  unfold digit. apply nat_ascii_embedding.
  pose proof (Nat.mod_upper_bound n 10). lia.
Qed.

Lemma is_digit_digit (n : nat) : is_digit (digit n) = true.
Proof.
  unfold is_digit. rewrite nat_of_digit. cbv zeta.
  pose proof (Nat.mod_upper_bound n 10).
  apply andb_true_iff. split; apply Nat.leb_le; lia.
Qed.

Lemma two_digits_pad (n : nat) :
  n < 100 -> two_digits (digit (n / 10)) (digit n) = n.
Proof.
  intros H. unfold two_digits. rewrite !nat_of_digit.
  pose proof (Nat.div_mod_eq n 10).
  pose proof (Nat.mod_upper_bound n 10).
  assert (n / 10 < 10) by (apply Nat.Div0.div_lt_upper_bound; lia).
  rewrite (Nat.mod_small (n / 10) 10) by assumption. lia.
Qed.

Lemma valid_datetime_bounds (d : datetime) :
  valid_datetime d = true ->
  1 <= year d < 100 * 100 /\ 1 <= month d <= 12
  /\ 1 <= day d <= days_in_month (year d) (month d)
  /\ hour d < 24 /\ minute d < 60 /\ second d < 60.
Proof.
  unfold valid_datetime. rewrite !andb_true_iff, !Nat.leb_le, !Nat.ltb_lt.
  assert (E : 9999 = 100 * 100 - 1) by reflexivity. rewrite E. lia.
Qed.

Lemma days_in_month_bound (y m : nat) : days_in_month y m <= 31.
Proof.
  unfold days_in_month.
  do 12 (destruct m as [|m]; [simpl; try destruct (is_leap y); lia|]).
  simpl. lia.
Qed.

(** On a timestamp written by [now_iso], [date()] returns its date part. *)
Lemma sqlite_date_isoformat (d : datetime) :
  valid_datetime d = true -> sqlite_date (isoformat d) = Some (isodate d).
Proof.
  intros V. apply valid_datetime_bounds in V.
  destruct V as (Hy & Hm & Hd & Hh & Hn & Hs).
  pose proof (days_in_month_bound (year d) (month d)) as Hb.
  assert (Hy1 : year d / 100 < 100)
    by (apply Nat.Div0.div_lt_upper_bound; lia).
  assert (Hy2 : year d mod 100 < 100) by (apply Nat.mod_upper_bound; lia).
  unfold sqlite_date, isoformat, isodate, pad4, pad2.
  cbn [list_ascii_of_string forallb substring].
  rewrite !is_digit_digit. cbn [andb].
  rewrite !two_digits_pad by lia.
  replace (year d / 100 * 100 + year d mod 100) with (year d)
    by (pose proof (Nat.div_mod_eq (year d) 100); lia).
  cbn [Ascii.eqb Bool.eqb andb orb].
  repeat match goal with
         | |- context [(?a <=? ?b)%nat] =>
             replace (a <=? b)%nat with true
               by (symmetry; apply Nat.leb_le; lia)
         | |- context [(?a <? ?b)%nat] =>
             replace (a <? b)%nat with true
               by (symmetry; apply Nat.ltb_lt; lia)
         end.
  reflexivity.
Qed.

Lemma ascii_compare_digit (a b : nat) :
  a < 10 -> b < 10 -> Ascii.compare (digit a) (digit b) = Nat.compare a b.
Proof.
  intros Ha Hb. unfold Ascii.compare.
  rewrite <- (N2Nat.id (N_of_ascii (digit a))).
  rewrite <- (N2Nat.id (N_of_ascii (digit b))).
  rewrite <- Nat2N.inj_compare.
  change (N.to_nat (N_of_ascii (digit a))) with (nat_of_ascii (digit a)).
  change (N.to_nat (N_of_ascii (digit b))) with (nat_of_ascii (digit b)).
  rewrite !nat_of_digit, !Nat.mod_small by assumption.
  destruct (Nat.compare_spec a b);
    [ apply Nat.compare_eq_iff | apply Nat.compare_lt_iff
    | apply Nat.compare_gt_iff ]; lia.
Qed.

(** Two-digit fields compare as their numbers do, then by what follows. *)
Lemma pad2_compare (a b : nat) (k1 k2 : string) :
  a < 100 -> b < 100 ->
  String.compare (pad2 a k1) (pad2 b k2) =
  match Nat.compare a b with
  | Eq => String.compare k1 k2
  | c => c
  end.
Proof.
  intros Ha Hb. unfold pad2. cbn [String.compare].
  assert (a / 10 < 10) by (apply Nat.Div0.div_lt_upper_bound; lia).
  assert (b / 10 < 10) by (apply Nat.Div0.div_lt_upper_bound; lia).
  pose proof (Nat.div_mod_eq a 10). pose proof (Nat.div_mod_eq b 10).
  pose proof (Nat.mod_upper_bound a 10). pose proof (Nat.mod_upper_bound b 10).
  assert (Da : digit a = digit (a mod 10))
    by (unfold digit; rewrite Nat.Div0.mod_mod; reflexivity).
  assert (Db : digit b = digit (b mod 10))
    by (unfold digit; rewrite Nat.Div0.mod_mod; reflexivity).
  rewrite Da, Db, !ascii_compare_digit by lia.
  destruct (Nat.compare_spec (a / 10) (b / 10));
    destruct (Nat.compare_spec (a mod 10) (b mod 10));
    destruct (Nat.compare_spec a b); try reflexivity; lia.
Qed.

Lemma pad4_compare (a b : nat) (k1 k2 : string) :
  a < 100 * 100 -> b < 100 * 100 ->
  String.compare (pad4 a k1) (pad4 b k2) =
  match Nat.compare a b with
  | Eq => String.compare k1 k2
  | c => c
  end.
Proof.
  intros Ha Hb. unfold pad4.
  assert (a / 100 < 100) by (apply Nat.Div0.div_lt_upper_bound; lia).
  assert (b / 100 < 100) by (apply Nat.Div0.div_lt_upper_bound; lia).
  pose proof (Nat.div_mod_eq a 100). pose proof (Nat.div_mod_eq b 100).
  pose proof (Nat.mod_upper_bound a 100).
  pose proof (Nat.mod_upper_bound b 100).
  rewrite !pad2_compare by lia.
  destruct (Nat.compare_spec (a / 100) (b / 100));
    destruct (Nat.compare_spec (a mod 100) (b mod 100));
    destruct (Nat.compare_spec a b); try reflexivity; lia.
Qed.

Lemma sep_compare (c : ascii) (k1 k2 : string) :
  String.compare (String c k1) (String c k2) = String.compare k1 k2.
Proof. simpl. rewrite ascii_compare_refl. reflexivity. Qed.

(** The timestamps of [now_iso] compare as the clock readings do. *)
Lemma isoformat_compare (a b : datetime) :
  valid_datetime a = true -> valid_datetime b = true ->
  String.compare (isoformat a) (isoformat b) = datetime_compare a b.
Proof.
  intros Va Vb. apply valid_datetime_bounds in Va, Vb.
  pose proof (days_in_month_bound (year a) (month a)).
  pose proof (days_in_month_bound (year b) (month b)).
  unfold datetime_compare, datetime_key, isoformat.
  cbn [key_compare].
  rewrite pad4_compare by lia. rewrite sep_compare.
  rewrite pad2_compare by lia. rewrite sep_compare.
  rewrite pad2_compare by lia. rewrite sep_compare.
  rewrite pad2_compare by lia. rewrite sep_compare.
  rewrite pad2_compare by lia. rewrite sep_compare.
  rewrite pad2_compare by lia. reflexivity.
Qed.

Lemma isoformat_leb (a b : datetime) :
  valid_datetime a = true -> valid_datetime b = true ->
  String.leb (isoformat a) (isoformat b) = datetime_le a b.
Proof.
  intros Va Vb. unfold String.leb, datetime_le.
  rewrite (isoformat_compare a b Va Vb). reflexivity.
Qed.

Lemma isoformat_monotone (a b : datetime) :
  valid_datetime a = true -> valid_datetime b = true ->
  datetime_le a b = true ->
  String.leb (isoformat a) (isoformat b) = true.
Proof. intros Va Vb H. rewrite isoformat_leb; assumption. Qed.

(** C4. [index] shows every stored medication once, in the order of its
    schedule and, for equal schedules, of its name (both compared as the
    BINARY collation does, code point by code point, so case matters).
    Each row carries its schedule and [last_taken]: nothing when the
    medication has no taken event, and otherwise the greatest [taken_at]
    among its events, which for timestamps written by [now_iso] is the
    latest one. *)
Theorem index_lists_all_in_order (s : db) :
  index s = mkOutcome s [] (render_index (index_query s))
  /\ Permutation (map ir_med (index_query s)) (meds s)
  /\ StronglySorted (fun a b => schedule_then_name (ir_med a) (ir_med b))
                    (index_query s)
  /\ (forall row,
        In row (index_query s) ->
        ir_schedule row = Meds.time_of_day (ir_med row)
        /\ match ir_last_taken row with
           | None => events_of (Meds.id (ir_med row)) s = []
           | Some ts =>
               (exists t, In t (events_of (Meds.id (ir_med row)) s)
                          /\ TakenLogs.taken_at t = ts)
               /\ (forall t, In t (events_of (Meds.id (ir_med row)) s) ->
                             String.leb (TakenLogs.taken_at t) ts = true)
           end)
  /\ (forall row t d d',
        In row (index_query s) ->
        In t (events_of (Meds.id (ir_med row)) s) ->
        valid_datetime d = true -> valid_datetime d' = true ->
        TakenLogs.taken_at t = isoformat d ->
        ir_last_taken row = Some (isoformat d') ->
        datetime_le d d' = true).
Proof.
  assert (L : forall row,
             In row (index_query s) ->
             ir_schedule row = Meds.time_of_day (ir_med row)
             /\ match ir_last_taken row with
                | None => events_of (Meds.id (ir_med row)) s = []
                | Some ts =>
                    (exists t, In t (events_of (Meds.id (ir_med row)) s)
                               /\ TakenLogs.taken_at t = ts)
                    /\ (forall t,
                          In t (events_of (Meds.id (ir_med row)) s) ->
                          String.leb (TakenLogs.taken_at t) ts = true)
                end).
  { intros row H. unfold index_query in H.
    apply in_map_iff in H. destruct H as (m & <- & _).
    cbn [ir_schedule ir_med ir_last_taken].
    split; [reflexivity | apply last_taken_of_spec]. }
  split; [reflexivity|]. split; [|split; [|split; [exact L|]]].
  - unfold index_query. rewrite map_map. cbn [ir_med]. rewrite map_id.
    symmetry. apply order_by_perm.
  - unfold index_query. apply strongly_sorted_map with
      (R := fun a b => schedule_then_name (ir_med a) (ir_med b)).
    cbn [ir_med].
    eapply strongly_sorted_impl;
      [|apply (order_by_sorted by_schedule_name by_schedule_name_total
                               by_schedule_name_trans)].
    intros a b. apply by_schedule_name_spec.
  - intros row t d d' Hrow Ht Vd Vd' Et El.
    destruct (L row Hrow) as [_ M]. rewrite El in M.
    destruct M as [_ M]. specialize (M t Ht).
    rewrite Et, isoformat_leb in M; assumption.
Qed.

(** ** Marking a medication as taken *)

Lemma sql_max_app_last (l : list string) (y : string) :
  Forall (fun x => String.leb x y = true) l -> sql_max (l ++ [y]) = Some y.
Proof.
  induction 1 as [|x r Hx Hr IH]; simpl; [reflexivity|].
  rewrite IH. apply string_ltb_leb in Hx. rewrite Hx. reflexivity.
Qed.

Lemma next_rowid_fresh (ids : list Z) (seq : Z) :
  Forall (fun i => (i < next_rowid ids seq)%Z) ids.
Proof.
  unfold next_rowid. induction ids as [|i r IH]; simpl; constructor.
  - lia.
  - eapply Forall_impl; [|exact IH]. intros j. simpl. lia.
Qed.

(** C3, as the code has it. Marking as taken an id that names no stored
    medication and fits a signed 64-bit integer flashes "Medication not
    found." and writes nothing; an id that does not fit makes the
    existence check raise [OverflowError], with no flash and no write.
    For a stored medication the request appends exactly one event, with
    a fresh id, that medication's id and the current clock reading as
    [taken_at], and changes nothing else; provided no earlier event of
    the medication is stamped later than that reading (the clock was not
    set back in between), [index] then has the row of the medication
    with the new timestamp as its [last_taken], and no row of that id
    with another one. *)
Theorem mark_taken_spec (med_id : Z) (now : datetime) (s : db) :
  (fits_int64 med_id = false ->
   mark_taken med_id now s = mkOutcome s [] (raises "OverflowError"))
  /\ (fits_int64 med_id = true ->
      select_med med_id s = None ->
      mark_taken med_id now s =
      mkOutcome s [("Medication not found.", "error")] (redirect "index"))
  /\ (forall m,
        fits_int64 med_id = true ->
        select_med med_id s = Some m ->
        let s' := db_after (mark_taken med_id now s) in
        let new_id := next_rowid (map TakenLogs.id (taken_logs s))
                                 (taken_logs_seq s) in
        meds s' = meds s
        /\ taken_logs s' =
           (taken_logs s ++ [TakenLogs.mk new_id med_id (now_iso now)])%list
        /\ Forall (fun t => (TakenLogs.id t < new_id)%Z) (taken_logs s)
        /\ (events_not_after now med_id s = true ->
            In (mkIndexRow m (Meds.time_of_day m) (Some (now_iso now)))
               (index_query s')
            /\ forall row,
                 In row (index_query s') ->
                 Meds.id (ir_med row) = med_id ->
                 ir_last_taken row = Some (now_iso now))).
Proof.
  split; [apply mark_taken_unfit|].
  unfold mark_taken. rewrite select_id_spec. split.
  - intros -> ->. reflexivity.
  - intros m -> Hsel. rewrite Hsel. cbn zeta. cbn [db_after].
    split; [reflexivity|]. split; [reflexivity|]. split.
    + apply Forall_map
        with (f := TakenLogs.id)
             (P := fun i => (i < next_rowid (map TakenLogs.id (taken_logs s))
                                            (taken_logs_seq s))%Z).
      apply next_rowid_fresh.
    + intros N.
      assert (L : forall m',
                 Meds.id m' = med_id ->
                 last_taken_of m' (insert_log med_id (now_iso now) s)
                 = Some (now_iso now)).
      { intros m' Hid. unfold last_taken_of, insert_log.
        cbn [taken_logs]. rewrite filter_app, map_app.
        cbn [filter TakenLogs.med_id]. rewrite Hid, Z.eqb_refl.
        cbn [map TakenLogs.taken_at]. apply sql_max_app_last.
        unfold events_not_after, events_of in N.
        rewrite forallb_forall in N.
        apply Forall_map
          with (f := TakenLogs.taken_at)
               (P := fun x => String.leb x (now_iso now) = true).
        apply Forall_forall. exact N. }
      apply select_med_some in Hsel. destruct Hsel as [Hm Hid]. split.
      * unfold index_query. apply in_map_iff. exists m. split.
        -- rewrite (L m Hid). reflexivity.
        -- apply order_by_in. exact Hm.
      * intros row Hrow Hrid. unfold index_query in Hrow.
        apply in_map_iff in Hrow. destruct Hrow as (m' & <- & _).
        cbn [ir_med ir_last_taken] in *. apply L, Hrid.
Qed.

Lemma mark_taken_spec_witness :
  fits_int64 1%Z = true
  /\ select_med 1%Z db_taken_twice <> None
  /\ events_not_after later_clock 1%Z db_taken_twice = true
  /\ In (mkIndexRow (Meds.mk 1 "Aspirin" "100mg" "Morning" (Some "")
                              "2024-03-05T09:07:01")
                    "Morning" (Some "2024-03-05T21:30:00"))
        (index_query
           (db_after (mark_taken 1%Z later_clock db_taken_twice))).
Proof.
  split; [reflexivity|]. split; [discriminate|]. split; [reflexivity|].
  destruct (mark_taken_spec 1%Z later_clock db_taken_twice) as (_ & _ & H).
  destruct (H (Meds.mk 1 "Aspirin" "100mg" "Morning" (Some "")
                       "2024-03-05T09:07:01") eq_refl eq_refl)
    as (_ & _ & _ & L).
  exact (proj1 (L eq_refl)).
Defined.

(** Marking the id 2^63 as taken, which the route accepts and which
    names no medication: the request raises and flashes nothing. *)
Lemma take_of_too_large_id_raises :
  select_med too_large_id db_aspirin = None
  /\ mark_taken too_large_id sample_clock db_aspirin =
     mkOutcome db_aspirin [] (raises "OverflowError").
Proof. split; reflexivity. Qed.

(** The clock set back an hour between two doses: [index] keeps
    reporting the timestamp of the first one, which is the greater. *)
Lemma mark_taken_last_taken_clock_set_back :
  valid_datetime before_set_back = true
  /\ valid_datetime after_set_back = true
  /\ db_taken_before_set_back =
     run [(req_add POST aspirin_form, sample_clock);
          (req_take 1%Z, before_set_back)] (init_db None)
  /\ select_med 1%Z db_taken_before_set_back <> None
  /\ now_iso after_set_back = "2024-11-03T01:10:00"
  /\ exists row,
       In row (index_query
                 (db_after (mark_taken 1%Z after_set_back
                                       db_taken_before_set_back)))
       /\ Meds.id (ir_med row) = 1%Z
       /\ ir_last_taken row = Some "2024-11-03T01:50:00"
       /\ ir_last_taken row <> Some (now_iso after_set_back).
Proof.
  split; [reflexivity|]. split; [reflexivity|]. split; [reflexivity|].
  split; [discriminate|]. split; [reflexivity|].
  exists (mkIndexRow (Meds.mk 1 "Aspirin" "100mg" "Morning" (Some "")
                              "2024-03-05T09:07:01")
                     "Morning" (Some "2024-11-03T01:50:00")).
  split; [left; reflexivity|]. split; [reflexivity|].
  split; [reflexivity | discriminate].
Qed.

(** In a run from the fresh database no event is stamped later than a
    clock reading that no request of the run was served after. *)
Lemma run_taken_at_bounded (rs : list (request * datetime)) (now : datetime)
    (s : db) :
  clock_not_set_back rs now = true ->
  (forall t, In t (taken_logs s) ->
             String.leb (TakenLogs.taken_at t) (now_iso now) = true) ->
  forall t, In t (taken_logs (run rs s)) ->
            String.leb (TakenLogs.taken_at t) (now_iso now) = true.
Proof.
  unfold clock_not_set_back. rewrite andb_true_iff. intros [Vn C].
  revert s. induction rs as [|[r d] rest IH]; intros s B; simpl; [exact B|].
  cbn [forallb snd] in C. rewrite !andb_true_iff in C.
  destruct C as [[Vd Ld] C]. apply (IH C). clear IH C.
  destruct r as [|method form|i method form|i|i|args|]; cbn [handle];
    try exact B.
  - unfold add_med. destruct method; [exact B|].
    destruct (validate_med_form _ _ _) as [[|] msg]; exact B.
  - unfold edit_med. destruct (fits_int64 i); [|exact B].
    destruct (select_med_view i s); [|exact B].
    destruct method; [exact B|].
    destruct (validate_med_form _ _ _) as [[|] msg]; exact B.
  - unfold mark_taken. destruct (fits_int64 i); [|exact B].
    destruct (select_id i s); [|exact B].
    cbn [db_after insert_log taken_logs]. intros t Ht.
    apply in_app_or in Ht. destruct Ht as [Ht|[<-|[]]]; [exact (B t Ht)|].
    apply isoformat_monotone; assumption.
  - unfold delete_med. destruct (fits_int64 i); [|exact B].
    cbn [db_after delete_med_row delete_logs taken_logs].
    intros t Ht. apply filter_In in Ht. apply B, Ht.
Qed.

Lemma run_events_not_after (rs : list (request * datetime)) (now : datetime)
    (i : Z) :
  clock_not_set_back rs now = true ->
  events_not_after now i (run rs (init_db None)) = true.
Proof.
  intros C. unfold events_not_after, events_of. apply forallb_forall.
  intros t Ht. apply filter_In in Ht.
  apply (run_taken_at_bounded rs now (init_db None) C); [|apply Ht].
  intros t' [].
Qed.

(** ** The history *)

Lemma by_taken_at_desc_total (a b : TakenLogs.row * Meds.row) :
  by_taken_at_desc a b = true \/ by_taken_at_desc b a = true.
Proof. unfold by_taken_at_desc. apply String.leb_total. Qed.

Lemma by_taken_at_desc_trans (a b c : TakenLogs.row * Meds.row) :
  by_taken_at_desc a b = true -> by_taken_at_desc b c = true ->
  by_taken_at_desc a c = true.
Proof.
  unfold by_taken_at_desc. intros H1 H2.
  eapply string_leb_trans; eassumption.
Qed.




Lemma history_spec (args : multidict) (now : datetime) (s : db) :
  history args now s =
  mkOutcome s []
            (render_history
               (history_query (String.eqb (normalised_day args) "today")
                              now s)
               (normalised_day args)).
Proof.
  unfold history, normalised_day.
  destruct (String.eqb _ "today"); reflexivity.
Qed.




(** ** The day filter *)

Lemma blank_nil : blank "".
Proof. constructor. Qed.

Lemma blank_cons (c : ascii) (x : string) :
  PyStr.isspace c = true -> blank x -> blank (String c x).
Proof. intros Hc Hx. constructor; assumption. Qed.

(** [lstrip] removes a blank prefix, [rstrip] a blank suffix. *)
Lemma lstrip_decompose (s : string) :
  exists pre, s = pre ++ PyStr.lstrip s /\ blank pre.
Proof.
  induction s as [|c r (pre & E & B)]; simpl.
  - exists "". split; [reflexivity | apply blank_nil].
  - destruct (PyStr.isspace c) eqn:Ec.
    + exists (String c pre). simpl. split; [f_equal; exact E|].
      apply blank_cons; assumption.
    + exists "". split; [reflexivity | apply blank_nil].
Qed.

Lemma rstrip_decompose (s : string) :
  exists post, s = PyStr.rstrip s ++ post /\ blank post.
Proof.
  induction s as [|c r (post & E & B)]; simpl.
  - exists "". split; [reflexivity | apply blank_nil].
  - destruct (PyStr.rstrip r) as [|c' r'] eqn:Er.
    + destruct (PyStr.isspace c) eqn:Ec.
      * exists (String c post). simpl in *. split; [f_equal; exact E|].
        apply blank_cons; assumption.
      * exists post. simpl in *. split; [f_equal; exact E | exact B].
    + exists post. split; [|exact B].
      change (String c (String c' r') ++ post)
        with (String c (String c' r' ++ post)).
      f_equal. exact E.
Qed.

(** Trimming takes a blank prefix and a blank suffix off a string. *)
Lemma strip_decompose (s : string) :
  exists pre post, s = pre ++ PyStr.strip s ++ post /\ blank pre /\ blank post.
Proof.
  destruct (lstrip_decompose s) as (pre & E1 & B1).
  destruct (rstrip_decompose (PyStr.lstrip s)) as (post & E2 & B2).
  exists pre, post. unfold PyStr.strip.
  split; [|split; assumption]. rewrite <- E2. exact E1.
Qed.

Lemma lstrip_blank_app (pre x : string) :
  blank pre -> PyStr.lstrip (pre ++ x) = PyStr.lstrip x.
Proof.
  unfold blank. induction pre as [|c r IH]; simpl; intros B; [reflexivity|].
  apply Forall_cons_iff in B. destruct B as [Hc Hr].
  rewrite Hc. apply IH, Hr.
Qed.

Lemma rstrip_blank (post : string) :
  blank post -> PyStr.rstrip post = "".
Proof. apply rstrip_empty. Qed.

Lemma rstrip_app_blank (x post : string) :
  blank post -> PyStr.rstrip (x ++ post) = PyStr.rstrip x.
Proof.
  intros B. induction x as [|c r IH]; simpl.
  - apply rstrip_blank, B.
  - rewrite IH. reflexivity.
Qed.

(** Whitespace has no letter case. *)
Lemma lower_char_space (c : ascii) :
  PyStr.isspace c = true -> PyStr.lower_char c = c.
Proof.
  destruct c as [[] [] [] [] [] [] [] []]; vm_compute;
    intros H; (reflexivity || discriminate H).
Qed.

Lemma lower_today_strip (core : string) :
  PyStr.lower core = "today" -> PyStr.strip core = core.
Proof.
  destruct core as [|c1 [|c2 [|c3 [|c4 [|c5 [|c6 r]]]]]]; try discriminate.
  intros [= H1 _ _ _ H5].
  assert (S1 : PyStr.isspace c1 = false).
  { destruct (PyStr.isspace c1) eqn:E; [|reflexivity].
    rewrite (lower_char_space _ E) in H1. subst c1. discriminate E. }
  assert (S5 : PyStr.isspace c5 = false).
  { destruct (PyStr.isspace c5) eqn:E; [|reflexivity].
    rewrite (lower_char_space _ E) in H5. subst c5. discriminate E. }
  unfold PyStr.strip. cbn [PyStr.lstrip]. rewrite S1.
  cbn [PyStr.rstrip]. rewrite S5. reflexivity.
Qed.

(** A raw value normalises to [today] exactly when it is the word today,
    in any letter case, between blanks. *)
Lemma normalises_to_today (raw : string) :
  PyStr.lower (PyStr.strip raw) = "today" <->
  exists pre core post,
    raw = pre ++ core ++ post /\ blank pre /\ blank post
    /\ PyStr.lower core = "today".
Proof.
  split.
  - intros H. destruct (strip_decompose raw) as (pre & post & E & B1 & B2).
    exists pre, (PyStr.strip raw), post. auto.
  - intros (pre & core & post & -> & B1 & B2 & H).
    pose proof (lower_today_strip core H) as S.
    unfold PyStr.strip in *.
    rewrite (lstrip_blank_app pre (core ++ post) B1).
    assert (L : PyStr.lstrip (core ++ post) = core ++ post).
    { apply lstrip_fixed.
      destruct core as [|c1 r]; [discriminate H|]. simpl.
      pose proof (lstrip_head (String c1 r)) as Hh. simpl in Hh.
      destruct (PyStr.isspace c1) eqn:E; [|reflexivity].
      exfalso. injection H as H1 _.
      rewrite (lower_char_space _ E) in H1. subst c1. discriminate E. }
    rewrite L, (rstrip_app_blank core post B2).
    assert (R : PyStr.rstrip core = core).
    { rewrite <- S at 2. f_equal. symmetry. apply lstrip_fixed.
      destruct core as [|c1 r]; [exact I|].
      destruct (PyStr.isspace c1) eqn:E; [|reflexivity].
      exfalso. injection H as H1 _.
      rewrite (lower_char_space _ E) in H1. subst c1. discriminate E. }
    rewrite R. exact H.
Qed.

(** C10. [history] trims and lowercases the [day] value before it
    compares it: the request is answered by the today query exactly when
    the normalised value is [today], that is when the raw value is the
    word today in any letter case between blanks, and by the all query
    otherwise (also when [day] is absent); the normalised value is what
    the page is given.  So [TODAY], [Today] and [ today ] select the
    today filter. *)
Theorem history_filter_normalised (args : multidict) (now : datetime)
    (s : db) :
  normalised_day args =
    PyStr.lower (PyStr.strip (PyStr.or_empty (md_get "day" args)))
  /\ history args now s =
     mkOutcome s []
       (render_history
          (if String.eqb (normalised_day args) "today"
           then history_query true now s
           else history_query false now s)
          (normalised_day args))
  /\ (normalised_day args = "today" <->
      exists pre core post,
        md_get "day" args = Some (pre ++ core ++ post)
        /\ blank pre /\ blank post /\ PyStr.lower core = "today")
  /\ Forall (fun v => history [("day", v)] now s =
                      mkOutcome s []
                        (render_history (history_query true now s) "today"))
            ["TODAY"; "Today"; " today "; "today"]
  /\ Forall (fun v => history [("day", v)] now s =
                      mkOutcome s []
                        (render_history (history_query false now s)
                                        (PyStr.lower (PyStr.strip v))))
            ["all"; ""; "to day"; "yesterday"]
  /\ history [] now s =
     mkOutcome s [] (render_history (history_query false now s) "").
Proof.
  split; [reflexivity|]. split; [reflexivity|]. split.
  - unfold normalised_day. rewrite normalises_to_today.
    destruct (md_get "day" args) as [raw|]; simpl.
    + split; intros (pre & core & post & E & H); exists pre, core, post;
        [rewrite E | injection E as ->]; auto.
    + split; intros (pre & core & post & E & B1 & B2 & H); [|discriminate].
      destruct pre; [|discriminate]. destruct core; discriminate.
  - split; [|split]; [| |reflexivity]; repeat constructor.
Qed.

(** ** A day with two doses *)

(** Aspirin is added and taken twice on one day: the history of today
    shows both doses, the later one first, and the list of medications
    shows the time of the later one. *)
Example two_doses_scenario :
  logs_shown (history [("day", "today")] (mkDatetime 2024 3 5 23 0 0)
                      db_two_doses)
  = [mkHistoryRow "2024-03-05T21:30:00" "Aspirin" "100mg" "Morning";
     mkHistoryRow "2024-03-05T09:07:01" "Aspirin" "100mg" "Morning"]
  /\ logs_shown (history [("day", "today")] (mkDatetime 2024 3 6 0 0 0)
                         db_two_doses) = []
  /\ map ir_last_taken (index_query db_two_doses)
     = [Some "2024-03-05T21:30:00"].
Proof. repeat split. Qed.

(** * Further properties *)

(** ** Row ids *)

Lemma distinct_spec (ids : list Z) : distinct ids = true <-> NoDup ids.
Proof.
  induction ids as [|i rest IH]; simpl.
  - split; [constructor | reflexivity].
  - rewrite andb_true_iff, negb_true_iff, IH. split.
    + intros [Hn Hd]. constructor; [|exact Hd]. intros Hin.
      assert (E : existsb (Z.eqb i) rest = true)
        by (apply existsb_exists; exists i; split; [exact Hin | lia]).
      congruence.
    + intros H. inversion H as [|? ? Hn Hd]; subst. split; [|exact Hd].
      destruct (existsb (Z.eqb i) rest) eqn:E; [|reflexivity].
      apply existsb_exists in E. destruct E as (j & Hj & Ej).
      apply Z.eqb_eq in Ej. subst j. contradiction.
Qed.

Lemma ids_within_spec (ids : list Z) (seq : Z) :
  ids_within ids seq = true <-> Forall (fun i => (0 < i <= seq)%Z) ids.
Proof.
  unfold ids_within. rewrite forallb_forall, Forall_forall.
  split; intros H i Hi; specialize (H i Hi).
  - apply andb_true_iff in H. lia.
  - apply andb_true_iff. split; [apply Z.ltb_lt | apply Z.leb_le]; lia.
Qed.

Lemma rowids_ok_spec (s : db) :
  rowids_ok s = true <->
  (NoDup (map Meds.id (meds s))
   /\ Forall (fun i => (0 < i <= meds_seq s)%Z) (map Meds.id (meds s)))
  /\ (NoDup (map TakenLogs.id (taken_logs s))
      /\ Forall (fun i => (0 < i <= taken_logs_seq s)%Z)
                (map TakenLogs.id (taken_logs s))).
Proof.
  unfold rowids_ok.
  rewrite !andb_true_iff, !distinct_spec, !ids_within_spec. tauto.
Qed.

Lemma next_rowid_above (ids : list Z) (seq : Z) :
  (seq < next_rowid ids seq)%Z /\ (0 < next_rowid ids seq)%Z.
Proof.
  unfold next_rowid.
  assert (0 <= fold_right Z.max 0 ids)%Z
    by (induction ids; simpl; lia).
  lia.
Qed.

(** A table after INSERT: the new id is unlike the old ones, and all are
    inside the new counter. *)
Lemma insert_ids_ok (ids : list Z) (seq : Z) :
  NoDup ids /\ Forall (fun i => (0 < i <= seq)%Z) ids ->
  NoDup (ids ++ [next_rowid ids seq])
  /\ Forall (fun i => (0 < i <= next_rowid ids seq)%Z)
            (ids ++ [next_rowid ids seq]).
Proof.
  intros [Hn Hw]. pose proof (next_rowid_above ids seq) as [Hs Hp].
  pose proof (next_rowid_fresh ids seq) as Hf. split.
  - apply NoDup_app; [exact Hn | repeat constructor; auto |].
    intros i Hi [<-|[]]. rewrite Forall_forall in Hf.
    specialize (Hf _ Hi). simpl in Hf. lia.
  - apply Forall_app. split; [|repeat constructor; lia].
    eapply Forall_impl; [|exact Hw]. intros i Hi. simpl in *. lia.
Qed.

(** A table after DELETE. *)
Lemma filter_ids_ok {A : Type} (f : A -> Z) (keep : A -> bool) (l : list A)
    (seq : Z) :
  NoDup (map f l) /\ Forall (fun i => (0 < i <= seq)%Z) (map f l) ->
  NoDup (map f (filter keep l))
  /\ Forall (fun i => (0 < i <= seq)%Z) (map f (filter keep l)).
Proof.
  induction l as [|x r IH]; simpl; [tauto|].
  intros [Hn Hw]. inversion Hn as [|? ? Hx Hr]; subst.
  inversion Hw as [|? ? Wx Wr]; subst.
  destruct (IH (conj Hr Wr)) as [IHn IHw].
  destruct (keep x); simpl; [|tauto]. split; constructor; auto.
  intros Hin. apply Hx. apply in_map_iff in Hin.
  destruct Hin as (y & Ey & Hy). apply filter_In in Hy.
  apply in_map_iff. exists y. tauto.
Qed.

Lemma update_med_ids (i : Z) (n d t : string) (nt : option string)
    (s : db) :
  map Meds.id (meds (update_med i n d t nt s)) = map Meds.id (meds s).
Proof.
  unfold update_med. cbn [meds]. rewrite map_map. apply map_ext.
  intros m. destruct (Meds.id m =? i)%Z; reflexivity.
Qed.

Lemma handle_rowids_ok (r : request) (now : datetime) (s : db) :
  rowids_ok s = true -> rowids_ok (db_after (handle r now s)) = true.
Proof.
  intros I. destruct r as [|method form|i method form|i|i|args|];
    cbn [handle]; try exact I.
  - unfold add_med. destruct method; [exact I|].
    destruct (validate_med_form _ _ _) as [[|] msg]; cbn [negb db_after];
      [|exact I].
    rewrite rowids_ok_spec in *. destruct I as [M L].
    cbn [insert_med meds taken_logs meds_seq taken_logs_seq].
    split; [|exact L]. rewrite map_app. cbn [map Meds.id].
    apply insert_ids_ok, M.
  - unfold edit_med. destruct (fits_int64 i); [|exact I].
    destruct (select_med_view i s) as [view|]; [|exact I].
    destruct method; [exact I|].
    destruct (validate_med_form _ _ _) as [[|] msg]; cbn [negb db_after];
      [|exact I].
    rewrite rowids_ok_spec in *. rewrite update_med_ids. exact I.
  - unfold mark_taken. destruct (fits_int64 i); [|exact I].
    destruct (select_id i s); [|exact I].
    rewrite rowids_ok_spec in *. destruct I as [M L].
    cbn [db_after insert_log meds taken_logs meds_seq taken_logs_seq].
    split; [exact M|]. rewrite map_app. cbn [map TakenLogs.id].
    apply insert_ids_ok, L.
  - unfold delete_med. destruct (fits_int64 i); [|exact I].
    rewrite rowids_ok_spec in *. destruct I as [M L].
    cbn [db_after delete_med_row delete_logs meds taken_logs
         meds_seq taken_logs_seq].
    split; apply filter_ids_ok; assumption.
Qed.

Lemma run_rowids_ok (rs : list (request * datetime)) (s : db) :
  rowids_ok s = true -> rowids_ok (run rs s) = true.
Proof.
  revert s. induction rs as [|[r now] rest IH]; intros s I; simpl;
    [exact I|].
  apply IH, handle_rowids_ok, I.
Qed.

Lemma handle_meds_seq (r : request) (now : datetime) (s : db) :
  (meds_seq s <= meds_seq (db_after (handle r now s)))%Z.
Proof.
  destruct r as [|method form|i method form|i|i|args|]; cbn [handle];
    try (cbn; lia).
  - unfold add_med. destruct method; [cbn; lia|].
    destruct (validate_med_form _ _ _) as [[|] msg];
      cbn [negb db_after insert_med meds_seq]; [|lia].
    pose proof (next_rowid_above (map Meds.id (meds s)) (meds_seq s)). lia.
  - unfold edit_med. destruct (fits_int64 i); [|cbn; lia].
    destruct (select_med_view i s); [|cbn; lia].
    destruct method; [cbn; lia|].
    destruct (validate_med_form _ _ _) as [[|] msg]; cbn; lia.
  - unfold mark_taken. destruct (fits_int64 i); [|cbn; lia].
    destruct (select_id i s); cbn; lia.
  - unfold delete_med. destruct (fits_int64 i); cbn; lia.
Qed.

(** X1. After any run of requests from the fresh database the ids of the
    medications are pairwise distinct, positive and at most the counter
    of [meds], and so are the ids of the taken events for theirs; every
    request keeps this. *)
Theorem rowids_unique_after_run :
  (forall r now s,
     rowids_ok s = true -> rowids_ok (db_after (handle r now s)) = true)
  /\ forall rs,
       let s := run rs (init_db None) in
       NoDup (map Meds.id (meds s))
       /\ Forall (fun i => (0 < i <= meds_seq s)%Z) (map Meds.id (meds s))
       /\ NoDup (map TakenLogs.id (taken_logs s))
       /\ Forall (fun i => (0 < i <= taken_logs_seq s)%Z)
                 (map TakenLogs.id (taken_logs s)).
Proof.
  split; [exact handle_rowids_ok|]. intros rs. cbn zeta.
  assert (H : rowids_ok (run rs (init_db None)) = true)
    by (apply run_rowids_ok; reflexivity).
  apply rowids_ok_spec in H. tauto.
Qed.

Lemma rowids_unique_after_run_witness :
  rowids_ok db_two_meds = true
  /\ rowids_ok (db_after (handle (req_delete 1%Z) later_clock db_two_meds))
     = true.
Proof.
  split; [reflexivity|].
  destruct rowids_unique_after_run as [H _].
  apply (H (req_delete 1%Z) later_clock db_two_meds). reflexivity.
Defined.

Lemma handle_absent_id (r : request) (now : datetime) (s : db) (i : Z) :
  (i <= meds_seq s)%Z -> select_med i s = None ->
  select_med i (db_after (handle r now s)) = None.
Proof.
  intros B N. destruct r as [|method form|j method form|j|j|args|];
    cbn [handle]; try exact N.
  - unfold add_med. destruct method; [exact N|].
    destruct (validate_med_form _ _ _) as [[|] msg]; cbn [negb db_after];
      [|exact N].
    rewrite select_med_none in *. cbn [insert_med meds]. intros m Hm.
    apply in_app_or in Hm. destruct Hm as [Hm|[<-|[]]]; [exact (N m Hm)|].
    cbn [Meds.id].
    pose proof (next_rowid_above (map Meds.id (meds s)) (meds_seq s)). lia.
  - unfold edit_med. destruct (fits_int64 j); [|exact N].
    destruct (select_med_view j s) as [view|]; [|exact N].
    destruct method; [exact N|].
    destruct (validate_med_form _ _ _) as [[|] msg]; cbn [negb db_after];
      [|exact N].
    rewrite select_med_none in *. cbn [update_med meds]. intros m' Hm'.
    apply in_map_iff in Hm'. destruct Hm' as (m & <- & Hm).
    specialize (N m Hm). destruct (Meds.id m =? j)%Z; exact N.
  - unfold mark_taken. destruct (fits_int64 j); [|exact N].
    destruct (select_id j s); exact N.
  - unfold delete_med. destruct (fits_int64 j); [|exact N].
    rewrite select_med_none in *.
    cbn [db_after delete_med_row delete_logs meds].
    intros m Hm. apply filter_In in Hm. apply N, Hm.
Qed.

Lemma run_absent_id (rs : list (request * datetime)) (s : db) (i : Z) :
  (i <= meds_seq s)%Z -> select_med i s = None ->
  select_med i (run rs s) = None.
Proof.
  revert s. induction rs as [|[r now] rest IH]; intros s B N; simpl;
    [exact N|].
  apply IH; [|apply handle_absent_id; assumption].
  pose proof (handle_meds_seq r now s). lia.
Qed.

Lemma stored_id_within (s : db) (i : Z) (m : Meds.row) :
  rowids_ok s = true -> select_med i s = Some m -> (i <= meds_seq s)%Z.
Proof.
  intros I H. apply rowids_ok_spec in I. destruct I as [[_ W] _].
  apply select_med_some in H. destruct H as [Hm <-].
  rewrite Forall_forall in W.
  specialize (W (Meds.id m) (in_map Meds.id _ _ Hm)). simpl in W. lia.
Qed.

(** X2. The id of a deleted medication is never given out again: once a
    medication that was stored after some run from the fresh database,
    under an id SQLite can bind, is deleted, no later run of requests
    stores a medication under its id. *)
Theorem deleted_id_never_reused (rs1 rs2 : list (request * datetime))
    (i : Z) (m : Meds.row) :
  fits_int64 i = true ->
  select_med i (run rs1 (init_db None)) = Some m ->
  select_med i (run rs2 (db_after (delete_med i (run rs1 (init_db None)))))
  = None.
Proof.
  intros Fit H. rewrite (delete_med_fits i _ Fit).
  apply run_absent_id.
  - cbn [db_after delete_med_row delete_logs meds_seq].
    eapply stored_id_within; [|exact H].
    apply run_rowids_ok. reflexivity.
  - apply select_med_none.
    cbn [db_after delete_med_row delete_logs meds].
    intros x Hx. apply filter_In in Hx. destruct Hx as [_ Hx].
    apply negb_true_iff, Z.eqb_neq in Hx. exact Hx.
Qed.

Lemma deleted_id_never_reused_witness :
  fits_int64 1%Z = true
  /\ select_med 1%Z (run requests_two_meds (init_db None)) <> None
  /\ select_med 1%Z
       (run [(req_add POST aspirin_form, later_clock)]
            (db_after (delete_med 1%Z
                         (run requests_two_meds (init_db None)))))
     = None.
Proof.
  split; [reflexivity|]. split; [discriminate|].
  apply (deleted_id_never_reused requests_two_meds
           [(req_add POST aspirin_form, later_clock)] 1%Z
           (Meds.mk 1 "Aspirin" "100mg" "Morning" (Some "")
                    "2024-03-05T09:07:01")).
  - reflexivity.
  - reflexivity.
Defined.

Lemma nodup_map_injective {A : Type} (f : A -> Z) (l : list A) (a b : A) :
  NoDup (map f l) -> In a l -> In b l -> f a = f b -> a = b.
Proof.
  induction l as [|x r IH]; simpl; [tauto|].
  intros Hn Ha Hb E. inversion Hn as [|? ? Hx Hr]; subst.
  destruct Ha as [->|Ha], Hb as [->|Hb]; auto.
  - exfalso. apply Hx. rewrite E. apply in_map, Hb.
  - exfalso. apply Hx. rewrite <- E. apply in_map, Ha.
Qed.

(** A medication after a request is one that was stored before, with
    its id and creation time, or a new one with a new id. *)
Lemma handle_med_origin (r : request) (now : datetime) (s : db)
    (m' : Meds.row) :
  In m' (meds (db_after (handle r now s))) ->
  (exists m, In m (meds s) /\ Meds.id m = Meds.id m'
             /\ Meds.created_at m = Meds.created_at m')
  \/ (meds_seq s < Meds.id m')%Z.
Proof.
  assert (Same : In m' (meds s) ->
                 (exists m, In m (meds s) /\ Meds.id m = Meds.id m'
                            /\ Meds.created_at m = Meds.created_at m')
                 \/ (meds_seq s < Meds.id m')%Z)
    by (intros H; left; exists m'; auto).
  destruct r as [|method form|j method form|j|j|args|]; cbn [handle];
    try exact Same.
  - unfold add_med. destruct method; [exact Same|].
    destruct (validate_med_form _ _ _) as [[|] msg]; cbn [negb db_after];
      [|exact Same].
    cbn [insert_med meds]. intros Hm.
    apply in_app_or in Hm. destruct Hm as [Hm|[<-|[]]]; [exact (Same Hm)|].
    right. cbn [Meds.id].
    apply (next_rowid_above (map Meds.id (meds s)) (meds_seq s)).
  - unfold edit_med. destruct (fits_int64 j); [|exact Same].
    destruct (select_med_view j s) as [view|]; [|exact Same].
    destruct method; [exact Same|].
    destruct (validate_med_form _ _ _) as [[|] msg]; cbn [negb db_after];
      [|exact Same].
    cbn [update_med meds]. intros Hm. apply in_map_iff in Hm.
    destruct Hm as (m & <- & Hm). left. exists m.
    destruct (Meds.id m =? j)%Z; auto.
  - unfold mark_taken. destruct (fits_int64 j); [|exact Same].
    destruct (select_id j s); exact Same.
  - unfold delete_med. destruct (fits_int64 j); [|exact Same].
    cbn [db_after delete_med_row delete_logs meds].
    intros Hm. apply filter_In in Hm. apply Same, Hm.
Qed.

(** X3. The creation time of a medication is immutable: in a database
    with unique ids, whatever requests follow, a medication stored
    afterwards under the id of a medication stored now has the creation
    time that one has now. *)
Theorem created_at_immutable (rs : list (request * datetime)) (s : db)
    (m m' : Meds.row) :
  rowids_ok s = true ->
  In m (meds s) -> In m' (meds (run rs s)) -> Meds.id m' = Meds.id m ->
  Meds.created_at m' = Meds.created_at m.
Proof.
  revert s m. induction rs as [|[r now] rest IH]; intros s m I Hm Hm' E.
  - simpl in Hm'. pose proof I as J. apply rowids_ok_spec in J.
    destruct J as [[Hn _] _].
    rewrite (nodup_map_injective Meds.id (meds s) m' m Hn Hm' Hm E).
    reflexivity.
  - simpl in Hm'.
    pose proof (handle_rowids_ok r now s I) as I1.
    pose proof I as J. apply rowids_ok_spec in J. destruct J as [[Hn Hw] _].
    assert (B : (Meds.id m <= meds_seq s)%Z).
    { rewrite Forall_forall in Hw.
      specialize (Hw _ (in_map Meds.id _ _ Hm)). simpl in Hw. lia. }
    destruct (select_med (Meds.id m) (db_after (handle r now s)))
      as [m1|] eqn:S1.
    + apply select_med_some in S1. destruct S1 as [Hm1 E1].
      rewrite (IH _ m1 I1 Hm1 Hm') by congruence.
      destruct (handle_med_origin r now s m1 Hm1) as [(m0 & H0 & E0 & C0)|F];
        [|lia].
      rewrite <- C0. f_equal.
      apply (nodup_map_injective Meds.id (meds s) m0 m Hn H0 Hm).
      congruence.
    + exfalso.
      assert (N : select_med (Meds.id m)
                    (run rest (db_after (handle r now s))) = None).
      { apply run_absent_id; [|exact S1].
        pose proof (handle_meds_seq r now s). lia. }
      rewrite select_med_none in N. exact (N m' Hm' E).
Qed.

Lemma created_at_immutable_witness :
  rowids_ok db_aspirin = true
  /\ forall m',
       In m' (meds (run [(req_edit 1%Z POST ibuprofen_form, later_clock)]
                        db_aspirin)) ->
       Meds.id m' = 1%Z -> Meds.created_at m' = "2024-03-05T09:07:01".
Proof.
  split; [reflexivity|]. intros m' Hm' E.
  apply (created_at_immutable
           [(req_edit 1%Z POST ibuprofen_form, later_clock)] db_aspirin
           (Meds.mk 1 "Aspirin" "100mg" "Morning" (Some "")
                    "2024-03-05T09:07:01") m').
  - reflexivity.
  - left. reflexivity.
  - exact Hm'.
  - exact E.
Defined.

(** ** Creating a medication *)

Lemma first_failure_none (name dose schedule : string) (r : rule) :
  first_failure name dose schedule = None ->
  rule_holds r name dose schedule = true.
Proof.
  unfold first_failure. intros H.
  assert (Hin : In r rules_in_order)
    by (destruct r; simpl; auto).
  apply (find_none _ _ H) in Hin. apply negb_false_iff in Hin. exact Hin.
Qed.

Lemma no_events_of_new_id (s : db) :
  logs_reference_meds s = true ->
  events_of (next_rowid (map Meds.id (meds s)) (meds_seq s)) s = [].
Proof.
  intros R. rewrite logs_reference_meds_spec in R.
  unfold events_of.
  destruct (filter _ (taken_logs s)) as [|t l] eqn:E; [reflexivity|].
  exfalso.
  assert (Ht : In t (filter
                      (fun t => (TakenLogs.med_id t =?
                                 next_rowid (map Meds.id (meds s))
                                            (meds_seq s))%Z)
                      (taken_logs s)))
    by (rewrite E; left; reflexivity).
  apply filter_In in Ht. destruct Ht as [Ht Hid].
  destruct (R t Ht) as (m & Hm & Em).
  pose proof (next_rowid_fresh (map Meds.id (meds s)) (meds_seq s)) as F.
  rewrite Forall_forall in F.
  specialize (F _ (in_map Meds.id _ _ Hm)). simpl in F. lia.
Qed.

(** X4. A create request whose trimmed fields break no rule appends one
    medication and changes nothing else: the new row has an id greater
    than every stored one, the trimmed name, dose, schedule and notes of
    the form and the current clock reading as creation time.  When the
    events all refer to stored medications, [index] lists it afterwards
    with its schedule and no [last_taken]. *)
Theorem add_med_accepted (form : multidict) (now : datetime) (s : db) :
  first_failure (field "name" form) (field "dose" form)
                (field "schedule" form) = None ->
  let o := add_med POST form now s in
  let new := Meds.mk (next_rowid (map Meds.id (meds s)) (meds_seq s))
                     (field "name" form) (field "dose" form)
                     (field "schedule" form) (Some (field "notes" form))
                     (now_iso now) in
  flashed o = [("Medication added.", "success")]
  /\ response_of o = redirect "index"
  /\ meds (db_after o) = (meds s ++ [new])%list
  /\ Forall (fun m => (Meds.id m < Meds.id new)%Z) (meds s)
  /\ taken_logs (db_after o) = taken_logs s
  /\ (logs_reference_meds s = true ->
      In (mkIndexRow new (field "schedule" form) None)
         (index_query (db_after o))).
Proof.
  intros V. cbn zeta. unfold add_med.
  rewrite validate_med_form_spec, V. cbn [negb].
  cbn [flashed response_of db_after insert_med meds taken_logs Meds.id].
  repeat split.
  - apply Forall_map
      with (f := Meds.id)
           (P := fun i => (i < next_rowid (map Meds.id (meds s))
                                          (meds_seq s))%Z).
    apply next_rowid_fresh.
  - intros R. unfold index_query. cbn [meds].
    apply in_map_iff.
    exists (Meds.mk (next_rowid (map Meds.id (meds s)) (meds_seq s))
                    (field "name" form) (field "dose" form)
                    (field "schedule" form) (Some (field "notes" form))
                    (now_iso now)).
    split.
    + cbn [Meds.time_of_day]. f_equal. unfold last_taken_of.
      unfold insert_med. cbn [taken_logs Meds.id].
      fold (events_of (next_rowid (map Meds.id (meds s)) (meds_seq s)) s).
      rewrite (no_events_of_new_id s R). reflexivity.
    + apply order_by_in. apply in_or_app. right. left. reflexivity.
Qed.

Lemma add_med_accepted_witness :
  first_failure (field "name" ibuprofen_form) (field "dose" ibuprofen_form)
                (field "schedule" ibuprofen_form) = None
  /\ logs_reference_meds db_taken_twice = true
  /\ In (mkIndexRow (Meds.mk 2 "Ibuprofen" "200mg" "Evening"
                             (Some "with food") "2024-03-05T21:30:00")
                    "Evening" None)
        (index_query
           (db_after (add_med POST ibuprofen_form later_clock
                              db_taken_twice))).
Proof.
  split; [reflexivity|]. split; [reflexivity|].
  destruct (add_med_accepted ibuprofen_form later_clock db_taken_twice
              eq_refl) as (_ & _ & _ & _ & _ & H).
  exact (H eq_refl).
Defined.

(** ** The log of taken events *)

(** X5. The log is append-only but for delete.  Whatever the request, an
    event in the log afterwards was in the log before, unchanged, or is
    the one event a take request has just written, stamped with the
    current clock reading under an id beyond the counter; and unless the
    request is a delete, the log before is kept whole, with at most one
    event after it. *)
Theorem taken_logs_append_only (r : request) (now : datetime) (s : db) :
  (forall t,
     In t (taken_logs (db_after (handle r now s))) ->
     In t (taken_logs s)
     \/ (r = req_take (TakenLogs.med_id t)
         /\ TakenLogs.taken_at t = now_iso now
         /\ (taken_logs_seq s < TakenLogs.id t)%Z))
  /\ (is_delete r = false ->
      exists new,
        taken_logs (db_after (handle r now s)) = (taken_logs s ++ new)%list
        /\ length new <= 1).
Proof.
  assert (Same : forall s' : db,
             taken_logs s' = taken_logs s ->
             (forall t,
                In t (taken_logs s') ->
                In t (taken_logs s)
                \/ (r = req_take (TakenLogs.med_id t)
                    /\ TakenLogs.taken_at t = now_iso now
                    /\ (taken_logs_seq s < TakenLogs.id t)%Z))
             /\ (is_delete r = false ->
                 exists new,
                   taken_logs s' = (taken_logs s ++ new)%list
                   /\ length new <= 1)).
  { intros s' E. rewrite E. split; [auto|].
    intros _. exists []. rewrite app_nil_r. auto. }
  destruct r as [|method form|i method form|i|i|args|]; cbn [handle];
    try (apply Same; reflexivity).
  - unfold add_med. destruct method; [apply Same; reflexivity|].
    destruct (validate_med_form _ _ _) as [[|] msg]; apply Same; reflexivity.
  - unfold edit_med. destruct (fits_int64 i); [|apply Same; reflexivity].
    destruct (select_med_view i s); [|apply Same; reflexivity].
    destruct method; [apply Same; reflexivity|].
    destruct (validate_med_form _ _ _) as [[|] msg]; apply Same; reflexivity.
  - unfold mark_taken. destruct (fits_int64 i); [|apply Same; reflexivity].
    destruct (select_id i s); [|apply Same; reflexivity].
    cbn [db_after insert_log taken_logs]. split.
    + intros t Ht. apply in_app_or in Ht.
      destruct Ht as [Ht|[<-|[]]]; [left; exact Ht|].
      right. cbn [TakenLogs.med_id TakenLogs.taken_at TakenLogs.id].
      repeat split.
      apply (next_rowid_above (map TakenLogs.id (taken_logs s))
                              (taken_logs_seq s)).
    + intros _. eexists. split; [reflexivity | simpl; lia].
  - split; [|discriminate]. unfold delete_med.
    destruct (fits_int64 i); [|auto].
    cbn [db_after delete_med_row delete_logs taken_logs].
    intros t Ht. apply filter_In in Ht. left. apply Ht.
Qed.

(** ** What is stored was validated *)

Lemma trimmed_field (key : string) (form : multidict) :
  trimmed (field key form) = true.
Proof.
  unfold trimmed, field. rewrite strip_idempotent. apply String.eqb_refl.
Qed.

Lemma accepted_form_as_validated (form : multidict) (i : Z) (c msg : string) :
  validate_med_form (field "name" form) (field "dose" form)
                    (field "schedule" form) = (true, msg) ->
  med_as_validated
    (Meds.mk i (field "name" form) (field "dose" form)
             (field "schedule" form) (Some (field "notes" form)) c) = true.
Proof.
  rewrite validate_med_form_spec.
  destruct (first_failure _ _ _) as [r|] eqn:F; [discriminate|]. intros _.
  unfold med_as_validated.
  cbn [Meds.name Meds.dose Meds.time_of_day Meds.notes].
  rewrite !trimmed_field.
  rewrite (first_failure_none _ _ _ rule_name_length F
           : (String.length (field "name" form) <=? 60)%nat = true).
  rewrite (first_failure_none _ _ _ rule_dose_length F
           : (String.length (field "dose" form) <=? 60)%nat = true).
  rewrite (first_failure_none _ _ _ rule_schedule_length F
           : (String.length (field "schedule" form) <=? 40)%nat = true).
  reflexivity.
Qed.

Lemma handle_meds_as_validated (r : request) (now : datetime) (s : db) :
  meds_as_validated s = true ->
  meds_as_validated (db_after (handle r now s)) = true.
Proof.
  intros I. destruct r as [|method form|i method form|i|i|args|];
    cbn [handle]; try exact I.
  - unfold add_med. destruct method; [exact I|].
    destruct (validate_med_form _ _ _) as [[|] msg] eqn:V;
      cbn [negb db_after]; [|exact I].
    unfold meds_as_validated, insert_med in *. cbn [meds].
    rewrite forallb_app, I. cbn [forallb].
    rewrite (accepted_form_as_validated _ _ _ _ V). reflexivity.
  - unfold edit_med. destruct (fits_int64 i); [|exact I].
    destruct (select_med_view i s) as [view|]; [|exact I].
    destruct method; [exact I|].
    destruct (validate_med_form _ _ _) as [[|] msg] eqn:V;
      cbn [negb db_after]; [|exact I].
    unfold meds_as_validated in *. rewrite forallb_forall in *.
    cbn [update_med meds]. intros m' Hm'. apply in_map_iff in Hm'.
    destruct Hm' as (m & <- & Hm).
    destruct (Meds.id m =? i)%Z; [|exact (I m Hm)].
    exact (accepted_form_as_validated _ _ _ _ V).
  - unfold mark_taken. destruct (fits_int64 i); [|exact I].
    destruct (select_id i s); exact I.
  - unfold delete_med. destruct (fits_int64 i); [|exact I].
    unfold meds_as_validated in *.
    cbn [db_after meds delete_logs delete_med_row].
    rewrite forallb_forall in *. intros m Hm.
    apply filter_In in Hm. apply I, Hm.
Qed.

Lemma run_meds_as_validated (rs : list (request * datetime)) (s : db) :
  meds_as_validated s = true -> meds_as_validated (run rs s) = true.
Proof.
  revert s. induction rs as [|[r now] rest IH]; intros s I; simpl;
    [exact I|].
  apply IH, handle_meds_as_validated, I.
Qed.

(** X6. Every stored medication is as validation accepted it: after any
    run of requests from the fresh database its name and dose have at
    most 60 characters and its schedule at most 40, name, dose, schedule
    and notes are trimmed, and the notes are never NULL.  Every request
    keeps this. *)
Theorem stored_meds_as_validated :
  (forall r now s,
     meds_as_validated s = true ->
     meds_as_validated (db_after (handle r now s)) = true)
  /\ forall rs m,
       In m (meds (run rs (init_db None))) ->
       String.length (Meds.name m) <= 60
       /\ String.length (Meds.dose m) <= 60
       /\ String.length (Meds.time_of_day m) <= 40
       /\ PyStr.strip (Meds.name m) = Meds.name m
       /\ PyStr.strip (Meds.dose m) = Meds.dose m
       /\ PyStr.strip (Meds.time_of_day m) = Meds.time_of_day m
       /\ exists nt, Meds.notes m = Some nt /\ PyStr.strip nt = nt.
Proof.
  split; [exact handle_meds_as_validated|]. intros rs m Hm.
  assert (I : meds_as_validated (run rs (init_db None)) = true)
    by (apply run_meds_as_validated; reflexivity).
  unfold meds_as_validated in I. rewrite forallb_forall in I.
  specialize (I m Hm). unfold med_as_validated, trimmed in I.
  rewrite !andb_true_iff, !Nat.leb_le, !String.eqb_eq in I.
  destruct I as ((((((L1 & L2) & L3) & T1) & T2) & T3) & N).
  repeat split; try assumption.
  destruct (Meds.notes m) as [nt|]; [|discriminate].
  exists nt. split; [reflexivity|]. apply String.eqb_eq, N.
Qed.

Lemma stored_meds_as_validated_witness :
  meds_as_validated db_two_meds = true
  /\ meds_as_validated
       (db_after (handle (req_edit 2%Z POST aspirin_form) later_clock
                         db_two_meds)) = true.
Proof.
  split; [reflexivity|].
  destruct stored_meds_as_validated as [H _].
  apply (H (req_edit 2%Z POST aspirin_form) later_clock db_two_meds).
  reflexivity.
Defined.

(** ** Deleting, again *)

Lemma filter_twice {A : Type} (f : A -> bool) (l : list A) :
  filter f (filter f l) = filter f l.
Proof.
  induction l as [|x r IH]; simpl; [reflexivity|].
  destruct (f x) eqn:E; simpl; [rewrite E, IH|]; auto.
Qed.

Lemma filter_swap {A : Type} (f g : A -> bool) (l : list A) :
  filter f (filter g l) = filter g (filter f l).
Proof.
  induction l as [|x r IH]; simpl; [reflexivity|].
  destruct (f x) eqn:Ef, (g x) eqn:Eg; simpl; rewrite ?Ef, ?Eg, IH;
    reflexivity.
Qed.

(** X7. Delete is idempotent and deletes commute: deleting an id a second
    time changes nothing more, and two deletes leave the same database in
    either order; this holds in every database. *)
Theorem delete_med_idempotent_commutes (i j : Z) (s : db) :
  db_after (delete_med i (db_after (delete_med i s)))
  = db_after (delete_med i s)
  /\ db_after (delete_med i (db_after (delete_med j s)))
     = db_after (delete_med j (db_after (delete_med i s))).
Proof.
  unfold delete_med.
  destruct (fits_int64 i), (fits_int64 j); cbn [db_after];
    try (split; reflexivity).
  - unfold delete_med_row, delete_logs.
    cbn [meds taken_logs meds_seq taken_logs_seq]. split.
    + rewrite !filter_twice. reflexivity.
    + f_equal; apply filter_swap.
  - unfold delete_med_row, delete_logs.
    cbn [meds taken_logs meds_seq taken_logs_seq]. split; [|reflexivity].
    rewrite !filter_twice. reflexivity.
Qed.

(** X8. Once an id that SQLite can bind is deleted, in whatever database,
    nothing is left of it: no medication and no event carries it, [index]
    has no row for it, an edit of it aborts with 404 and a take of it
    flashes "Medication not found."; neither writes. *)
Theorem deleted_med_is_gone (i : Z) (method : http_method)
    (form : multidict) (now : datetime) (s : db) :
  fits_int64 i = true ->
  let s' := db_after (delete_med i s) in
  select_med i s' = None
  /\ events_of i s' = []
  /\ (forall row, In row (index_query s') -> Meds.id (ir_med row) <> i)
  /\ edit_med i method form s' = mkOutcome s' [] (abort 404)
  /\ mark_taken i now s' =
     mkOutcome s' [("Medication not found.", "error")] (redirect "index").
Proof.
  intros Fit. cbn zeta. rewrite (delete_med_fits i s Fit).
  cbn [db_after].
  assert (N : select_med i (delete_med_row i (delete_logs i s)) = None).
  { apply select_med_none.
    cbn [delete_med_row delete_logs meds].
    intros x Hx. apply filter_In in Hx. destruct Hx as [_ Hx].
    apply negb_true_iff, Z.eqb_neq in Hx. exact Hx. }
  split; [exact N|]. split; [|split; [|split]].
  - unfold events_of.
    cbn [delete_med_row delete_logs taken_logs].
    destruct (filter _ (filter _ (taken_logs s))) as [|t l] eqn:E;
      [reflexivity|].
    exfalso.
    assert (Ht : In t (t :: l)) by (left; reflexivity).
    rewrite <- E in Ht. apply filter_In in Ht. destruct Ht as [Ht E1].
    apply filter_In in Ht. destruct Ht as [_ E2].
    rewrite E1 in E2. discriminate.
  - intros row Hrow. unfold index_query in Hrow.
    apply in_map_iff in Hrow. destruct Hrow as (m & <- & Hm).
    apply order_by_in in Hm. cbn [ir_med].
    rewrite select_med_none in N. exact (N m Hm).
  - unfold edit_med. rewrite Fit.
    apply select_med_view_none in N. rewrite N. reflexivity.
  - unfold mark_taken. rewrite Fit, select_id_spec, N. reflexivity.
Qed.

Lemma deleted_med_is_gone_witness :
  fits_int64 1%Z = true
  /\ select_med 1%Z db_two_meds <> None
  /\ mark_taken 1%Z later_clock (db_after (delete_med 1%Z db_two_meds)) =
     mkOutcome (db_after (delete_med 1%Z db_two_meds))
               [("Medication not found.", "error")] (redirect "index").
Proof.
  split; [reflexivity|]. split; [discriminate|].
  destruct (deleted_med_is_gone 1%Z POST blank_form later_clock db_two_meds
              eq_refl) as (_ & _ & _ & _ & H).
  exact H.
Defined.

(** ** Marking as taken, again *)

Lemma filter_map_agree {A B : Type} (p : B -> bool) (f g : A -> B)
    (l : list A) :
  (forall x, In x l -> p (f x) = p (g x)) ->
  (forall x, In x l -> p (f x) = true -> f x = g x) ->
  filter p (map f l) = filter p (map g l).
Proof.
  induction l as [|x r IH]; simpl; intros Hp He; [reflexivity|].
  rewrite <- (Hp x (or_introl eq_refl)).
  destruct (p (f x)) eqn:E.
  - rewrite <- (He x (or_introl eq_refl) E). f_equal. apply IH; auto.
  - apply IH; auto.
Qed.

(** X9. Marking one medication as taken changes nothing that [index]
    shows for the others: the rows of every other id are the same, in
    the same order, before and after. *)
Theorem mark_taken_frame (i : Z) (now : datetime) (s : db) :
  filter (fun row => negb (Meds.id (ir_med row) =? i)%Z)
         (index_query (db_after (mark_taken i now s)))
  = filter (fun row => negb (Meds.id (ir_med row) =? i)%Z) (index_query s).
Proof.
  unfold mark_taken. destruct (fits_int64 i); [|reflexivity].
  destruct (select_id i s); [|reflexivity].
  unfold index_query. cbn [db_after insert_log meds].
  apply filter_map_agree; cbn [ir_med]; [reflexivity|].
  intros m _ Hm. f_equal. unfold last_taken_of, insert_log.
  cbn [taken_logs]. rewrite filter_app. cbn [filter TakenLogs.med_id].
  apply negb_true_iff in Hm. rewrite Z.eqb_sym, Hm, app_nil_r.
  reflexivity.
Qed.

(** ** The history, again *)

Lemma strongly_sorted_firstn_skipn {A : Type} (R : A -> A -> Prop)
    (n : nat) (l : list A) (a b : A) :
  StronglySorted R l -> In a (firstn n l) -> In b (skipn n l) -> R a b.
Proof.
  intros H. revert n. induction H as [|x r Hr IH Hx]; intros n Ha Hb.
  - destruct n; destruct Ha.
  - destruct n as [|n]; [destruct Ha|]. simpl in Ha, Hb.
    destruct Ha as [<-|Ha]; [|exact (IH n Ha Hb)].
    rewrite Forall_forall in Hx. apply Hx.
    rewrite <- (firstn_skipn n r). apply in_or_app. right. exact Hb.
Qed.

(** X10. [history] cuts the oldest off: the rows it selects together with
    the rows it leaves out are the joined rows that pass the filter, no
    row it leaves out has a later [taken_at] than a row it shows, and
    it leaves none out when there are at most 250. *)
Theorem history_shows_most_recent (today : bool) (now : datetime) (s : db) :
  let candidates :=
    if today then filter (taken_today now) (logs_join_meds s)
    else logs_join_meds s in
  exists rest,
    Permutation (history_select today now s ++ rest) candidates
    /\ (forall a b,
          In a (history_select today now s) -> In b rest ->
          String.leb (TakenLogs.taken_at (fst b))
                     (TakenLogs.taken_at (fst a)) = true)
    /\ (length candidates <= 250 -> rest = []).
Proof.
  cbn zeta. unfold history_select.
  set (candidates := if today then filter (taken_today now) (logs_join_meds s)
                     else logs_join_meds s).
  exists (skipn 250 (order_by by_taken_at_desc candidates)).
  split; [|split].
  - rewrite firstn_skipn. symmetry. apply order_by_perm.
  - intros a b Ha Hb.
    exact (strongly_sorted_firstn_skipn
             (fun a b => by_taken_at_desc a b = true) 250
             (order_by by_taken_at_desc candidates) a b
             (order_by_sorted by_taken_at_desc by_taken_at_desc_total
                              by_taken_at_desc_trans candidates)
             Ha Hb).
  - intros L. apply skipn_all2.
    rewrite <- (Permutation_length (order_by_perm by_taken_at_desc
                                                  candidates)).
    exact L.
Qed.

Lemma filter_none {A : Type} (f : A -> bool) (l : list A) :
  (forall x, In x l -> f x = false) -> filter f l = [].
Proof.
  induction l as [|x r IH]; simpl; intros H; [reflexivity|].
  rewrite (H x (or_introl eq_refl)). apply IH. auto.
Qed.

Lemma filter_unique_id (l : list Meds.row) (m : Meds.row) :
  NoDup (map Meds.id l) -> In m l ->
  filter (fun x => (Meds.id x =? Meds.id m)%Z) l = [m].
Proof.
  induction l as [|x r IH]; simpl; [tauto|].
  intros Hn Hin. inversion Hn as [|? ? Hx Hr]; subst.
  destruct Hin as [->|Hin].
  - rewrite Z.eqb_refl. f_equal. apply filter_none.
    intros y Hy. apply Z.eqb_neq. intros E. apply Hx. rewrite <- E.
    apply in_map, Hy.
  - destruct (Z.eqb_spec (Meds.id x) (Meds.id m)) as [E|E].
    + exfalso. apply Hx. rewrite E. apply in_map, Hin.
    + apply IH; assumption.
Qed.

Lemma join_one_row_per_event (s : db) :
  rowids_ok s = true -> logs_reference_meds s = true ->
  map fst (logs_join_meds s) = taken_logs s.
Proof.
  intros I R. apply rowids_ok_spec in I. destruct I as [[Hn _] _].
  rewrite logs_reference_meds_spec in R. unfold logs_join_meds.
  induction (taken_logs s) as [|t l IH]; simpl; [reflexivity|].
  rewrite map_app, IH by (intros t' Ht'; apply R; right; exact Ht').
  destruct (R t (or_introl eq_refl)) as (m & Hm & E).
  rewrite <- E, (filter_unique_id (meds s) m Hn Hm). reflexivity.
Qed.

(** X11. After any run of requests from the fresh database every taken
    event joins with exactly one medication, so the history without the
    today filter has one row for each event, up to 250: it shows as many
    rows as there are events, or 250 when there are more. *)
Theorem history_one_row_per_event (rs : list (request * datetime))
    (now : datetime) :
  let s := run rs (init_db None) in
  map fst (logs_join_meds s) = taken_logs s
  /\ length (logs_shown (history [("day", "all")] now s))
     = Nat.min 250 (length (taken_logs s)).
Proof.
  cbn zeta.
  assert (J : map fst (logs_join_meds (run rs (init_db None)))
              = taken_logs (run rs (init_db None))).
  { apply join_one_row_per_event.
    - apply run_rowids_ok. reflexivity.
    - apply run_logs_reference_meds. reflexivity. }
  split; [exact J|].
  change (logs_shown (history [("day", "all")] now (run rs (init_db None))))
    with (history_query false now (run rs (init_db None))).
  unfold history_query, history_select.
  rewrite length_map, length_firstn.
  rewrite <- (Permutation_length
                (order_by_perm by_taken_at_desc
                   (logs_join_meds (run rs (init_db None))))).
  rewrite <- J, length_map. reflexivity.
Qed.

(** ** Timestamps, again *)

Lemma key_compare_eq (a b : list nat) :
  length a = length b -> key_compare a b = Eq -> a = b.
Proof.
  revert b. induction a as [|x a IH]; intros [|y b]; simpl; try discriminate;
    [reflexivity|].
  intros L. destruct (Nat.compare_spec x y) as [->|_|_]; try discriminate.
  intros H. f_equal. apply IH; [lia | exact H].
Qed.

(** X12. The timestamps [now_iso] writes are faithful to the clock: for
    valid clock readings a timestamp has 19 characters, two timestamps
    compare in the BINARY collation as their readings do in time, so
    equal timestamps come from equal readings, and SQLite's [date] gives
    back the first ten characters, the date of the reading. *)
Theorem now_iso_faithful (a b : datetime) :
  valid_datetime a = true -> valid_datetime b = true ->
  String.length (now_iso a) = 19
  /\ String.compare (now_iso a) (now_iso b) = datetime_compare a b
  /\ (now_iso a = now_iso b -> a = b)
  /\ sqlite_date (now_iso a) = Some (isodate a)
  /\ substring 0 10 (now_iso a) = isodate a.
Proof.
  intros Va Vb. split; [reflexivity|].
  split; [apply isoformat_compare; assumption|].
  split; [|split; [apply sqlite_date_isoformat, Va | reflexivity]].
  intros E.
  assert (C : datetime_compare a b = Eq).
  { rewrite <- (isoformat_compare a b Va Vb). apply string_compare_eq, E. }
  unfold datetime_compare in C. apply key_compare_eq in C; [|reflexivity].
  destruct a, b. unfold datetime_key in C. simpl in C.
  injection C as -> -> -> -> -> ->. reflexivity.
Qed.

Lemma now_iso_faithful_witness :
  valid_datetime before_set_back = true
  /\ valid_datetime after_set_back = true
  /\ String.compare (now_iso before_set_back) (now_iso after_set_back)
     = datetime_compare before_set_back after_set_back.
Proof.
  split; [reflexivity|]. split; [reflexivity|].
  destruct (now_iso_faithful before_set_back after_set_back eq_refl eq_refl)
    as (_ & H & _).
  exact H.
Defined.

(** ** Forms *)

(** X13. A create request that leaves out one of name, dose and schedule,
    or submits nothing but whitespace for it, is answered with the
    fill-in message whatever else the form holds, over-long fields
    included, and writes nothing. *)
Theorem missing_required_field_rejected (key : string) (form : multidict)
    (now : datetime) (s : db) :
  In key ["name"; "dose"; "schedule"] ->
  match md_get key form with
  | Some raw => blank raw
  | None => True
  end ->
  add_med POST form now s =
  mkOutcome s [("Please fill in Name, Dose, and Schedule.", "error")]
            (render_add_edit "add" None).
Proof.
  intros K B. apply field_empty in B.
  unfold add_med, validate_med_form.
  assert (F : PyStr.falsy (field "name" form)
              || PyStr.falsy (field "dose" form)
              || PyStr.falsy (field "schedule" form) = true).
  { destruct K as [<-|[<-|[<-|[]]]]; rewrite B; simpl;
      rewrite ?orb_true_r; reflexivity. }
  rewrite F. reflexivity.
Qed.

Lemma missing_required_field_rejected_witness :
  In "dose" ["name"; "dose"; "schedule"]
  /\ md_get "dose" long_name_no_dose_form = None
  /\ (60 <? String.length (field "name" long_name_no_dose_form))%nat = true
  /\ add_med POST long_name_no_dose_form sample_clock db_aspirin =
     mkOutcome db_aspirin
               [("Please fill in Name, Dose, and Schedule.", "error")]
               (render_add_edit "add" None).
Proof.
  split; [right; left; reflexivity|]. split; [reflexivity|].
  split; [reflexivity|].
  apply (missing_required_field_rejected "dose" long_name_no_dose_form
           sample_clock db_aspirin).
  - right. left. reflexivity.
  - exact I.
Defined.

Lemma rstrip_last (s : string) (c : ascii) :
  last_char (PyStr.rstrip s) = Some c -> PyStr.isspace c = false.
Proof.
  induction s as [|a r IH]; simpl; [discriminate|].
  destruct (PyStr.rstrip r) as [|a' r'] eqn:E.
  - destruct (PyStr.isspace a) eqn:Ea; simpl; [discriminate|].
    intros [= <-]. exact Ea.
  - exact IH.
Qed.

(** X14. Trimming a submitted field takes whitespace off its two ends and
    nothing else: the submitted value is the stored field between two
    runs of whitespace, and the field neither begins nor ends with a
    whitespace character. *)
Theorem field_trims_only_blanks (key : string) (form : multidict)
    (raw : string) :
  md_get key form = Some raw ->
  (exists pre post,
     raw = pre ++ field key form ++ post /\ blank pre /\ blank post)
  /\ (forall c, first_char (field key form) = Some c ->
                PyStr.isspace c = false)
  /\ (forall c, last_char (field key form) = Some c ->
                PyStr.isspace c = false).
Proof.
  intros G. unfold field. rewrite G. cbn [PyStr.or_empty].
  split; [apply strip_decompose|]. split.
  - intros c H. unfold PyStr.strip in H.
    pose proof (rstrip_head (PyStr.lstrip raw) (lstrip_head raw)) as Hh.
    destruct (PyStr.rstrip (PyStr.lstrip raw)); [discriminate|].
    simpl in H. injection H as <-. exact Hh.
  - intros c. apply rstrip_last.
Qed.

Lemma field_trims_only_blanks_witness :
  md_get "name" aspirin_form = Some " Aspirin "
  /\ exists pre post,
       " Aspirin " = pre ++ field "name" aspirin_form ++ post
       /\ blank pre /\ blank post.
Proof.
  split; [reflexivity|].
  destruct (field_trims_only_blanks "name" aspirin_form " Aspirin " eq_refl)
    as [H _].
  exact H.
Defined.

(** ** Editing, again *)

Lemma map_fixed {A : Type} (f : A -> A) (l : list A) :
  (forall x, In x l -> f x = x) -> map f l = l.
Proof.
  induction l as [|x r IH]; simpl; intros H; [reflexivity|].
  rewrite (H x (or_introl eq_refl)). f_equal. apply IH. auto.
Qed.

(** X15. With unique ids an accepted update, of an id SQLite can bind,
    rewrites exactly one row: the table is as before but for the one row
    of that id, which keeps its place, id and creation time and takes the
    trimmed fields of the form. *)
Theorem edit_updates_one_row (i : Z) (form : multidict) (s : db)
    (m : Meds.row) :
  fits_int64 i = true ->
  rowids_ok s = true ->
  select_med i s = Some m ->
  first_failure (field "name" form) (field "dose" form)
                (field "schedule" form) = None ->
  exists l1 l2,
    meds s = (l1 ++ m :: l2)%list
    /\ meds (db_after (edit_med i POST form s))
       = (l1 ++ Meds.mk i (field "name" form) (field "dose" form)
                        (field "schedule" form) (Some (field "notes" form))
                        (Meds.created_at m) :: l2)%list.
Proof.
  intros Fit I S V. apply rowids_ok_spec in I. destruct I as [[Hn _] _].
  pose proof (select_med_some _ _ _ S) as [Hm Ei].
  destruct (in_split _ _ Hm) as (l1 & l2 & E).
  exists l1, l2. split; [exact E|].
  unfold edit_med, select_med_view.
  rewrite Fit, S, validate_med_form_spec, V. cbn [negb db_after update_med meds].
  rewrite E in Hn |- *. rewrite map_app in Hn. cbn [map] in Hn.
  apply NoDup_remove_2 in Hn.
  rewrite map_app. cbn [map]. rewrite Ei, Z.eqb_refl.
  assert (Other : forall l,
             (forall x, In x l -> In (Meds.id x)
                                     (map Meds.id l1 ++ map Meds.id l2)) ->
             map (fun x => if (Meds.id x =? i)%Z
                           then Meds.mk (Meds.id x) (field "name" form)
                                        (field "dose" form)
                                        (field "schedule" form)
                                        (Some (field "notes" form))
                                        (Meds.created_at x)
                           else x) l = l).
  { intros l Hl. apply map_fixed. intros x Hx.
    destruct (Z.eqb_spec (Meds.id x) i) as [Ex|_]; [|reflexivity].
    exfalso. apply Hn. rewrite Ei, <- Ex. apply Hl, Hx. }
  rewrite !Other; [reflexivity| |].
  - intros x Hx. apply in_or_app. right. apply in_map, Hx.
  - intros x Hx. apply in_or_app. left. apply in_map, Hx.
Qed.

Lemma edit_updates_one_row_witness :
  fits_int64 2%Z = true
  /\ rowids_ok db_two_meds = true
  /\ first_failure (field "name" aspirin_form) (field "dose" aspirin_form)
                   (field "schedule" aspirin_form) = None
  /\ exists l1 l2,
       meds db_two_meds
       = (l1 ++ Meds.mk 2 "Ibuprofen" "200mg" "Evening" (Some "with food")
                        "2024-03-05T21:30:00" :: l2)%list
       /\ meds (db_after (edit_med 2%Z POST aspirin_form db_two_meds))
          = (l1 ++ Meds.mk 2 "Aspirin" "100mg" "Morning" (Some "")
                           "2024-03-05T21:30:00" :: l2)%list.
Proof.
  split; [reflexivity|]. split; [reflexivity|]. split; [reflexivity|].
  exact (edit_updates_one_row 2%Z aspirin_form db_two_meds
           (Meds.mk 2 "Ibuprofen" "200mg" "Evening" (Some "with food")
                    "2024-03-05T21:30:00")
           eq_refl eq_refl eq_refl eq_refl).
Defined.

(** ** The day filter, again *)

Lemma isspace_lower_char (c : ascii) :
  PyStr.isspace (PyStr.lower_char c) = PyStr.isspace c.
Proof. destruct c as [[] [] [] [] [] [] [] []]; reflexivity. Qed.

Lemma lower_char_idempotent (c : ascii) :
  PyStr.lower_char (PyStr.lower_char c) = PyStr.lower_char c.
Proof. destruct c as [[] [] [] [] [] [] [] []]; reflexivity. Qed.

Lemma lower_idempotent (s : string) :
  PyStr.lower (PyStr.lower s) = PyStr.lower s.
Proof.
  induction s as [|c r IH]; simpl; [reflexivity|].
  rewrite lower_char_idempotent, IH. reflexivity.
Qed.

Lemma lower_lstrip (s : string) :
  PyStr.lstrip (PyStr.lower s) = PyStr.lower (PyStr.lstrip s).
Proof.
  induction s as [|c r IH]; simpl; [reflexivity|].
  rewrite isspace_lower_char. destruct (PyStr.isspace c); [exact IH|].
  reflexivity.
Qed.

Lemma lower_rstrip (s : string) :
  PyStr.rstrip (PyStr.lower s) = PyStr.lower (PyStr.rstrip s).
Proof.
  induction s as [|c r IH]; simpl; [reflexivity|].
  rewrite IH, isspace_lower_char.
  destruct (PyStr.rstrip r); simpl; [|reflexivity].
  destruct (PyStr.isspace c); reflexivity.
Qed.

Lemma lower_strip (s : string) :
  PyStr.strip (PyStr.lower s) = PyStr.lower (PyStr.strip s).
Proof. unfold PyStr.strip. rewrite lower_lstrip, lower_rstrip. reflexivity. Qed.

(** X16. The [day] value that [history] hands to its page is already
    normalised: trimming and lowercasing it again gives it back, so a
    request that sends that value gets the answer of the request it came
    from. *)
Theorem day_echo_stable (args : multidict) (now : datetime) (s : db) :
  normalised_day [("day", normalised_day args)] = normalised_day args
  /\ history [("day", normalised_day args)] now s = history args now s.
Proof.
  assert (E : normalised_day [("day", normalised_day args)]
              = normalised_day args).
  { unfold normalised_day at 1. cbn [md_get String.eqb Ascii.eqb Bool.eqb
                                     PyStr.or_empty].
    unfold normalised_day.
    rewrite lower_strip, lower_idempotent, strip_idempotent. reflexivity. }
  split; [exact E|]. rewrite !history_spec, E. reflexivity.
Qed.

(** ** Aborting *)

(** X17. A request aborts only when it edits, under an id SQLite can
    bind, a medication that is not stored, and then with 404; a request
    raises only when it is an edit, a take or a delete whose id does not
    fit a signed 64-bit integer, and then [OverflowError].  A take or a
    delete of a missing id that fits, a rejected form and every other
    request are answered with a page or a redirect. *)
Theorem abort_only_for_missing_edit (r : request) (now : datetime) (s : db)
    (code : nat) (exception : string) :
  (response_of (handle r now s) = abort code <->
   code = 404
   /\ exists i method form,
        r = req_edit i method form
        /\ fits_int64 i = true /\ select_med i s = None)
  /\ (response_of (handle r now s) = raises exception <->
      exception = "OverflowError"
      /\ exists i,
           fits_int64 i = false
           /\ (r = req_take i \/ r = req_delete i
               \/ exists method form, r = req_edit i method form)).
Proof.
  split; split.
  - destruct r as [|method form|i method form|i|i|args|]; cbn [handle];
      try discriminate.
    + unfold add_med. destruct method; [discriminate|].
      destruct (validate_med_form _ _ _) as [[|] msg]; discriminate.
    + unfold edit_med. destruct (fits_int64 i) eqn:Fit; [|discriminate].
      destruct (select_med_view i s) as [view|] eqn:E.
      * destruct method; [discriminate|].
        destruct (validate_med_form _ _ _) as [[|] msg]; discriminate.
      * intros [= <-]. split; [reflexivity|].
        exists i, method, form. split; [reflexivity|].
        split; [exact Fit | apply select_med_view_none, E].
    + unfold mark_taken. destruct (fits_int64 i); [|discriminate].
      destruct (select_id i s); discriminate.
    + unfold delete_med. destruct (fits_int64 i); discriminate.
  - intros (-> & i & method & form & -> & Fit & N). cbn [handle].
    unfold edit_med. rewrite Fit.
    apply select_med_view_none in N. rewrite N. reflexivity.
  - destruct r as [|method form|i method form|i|i|args|]; cbn [handle];
      try discriminate.
    + unfold add_med. destruct method; [discriminate|].
      destruct (validate_med_form _ _ _) as [[|] msg]; discriminate.
    + unfold edit_med. destruct (fits_int64 i) eqn:Fit.
      * destruct (select_med_view i s) as [view|]; [|discriminate].
        destruct method; [discriminate|].
        destruct (validate_med_form _ _ _) as [[|] msg]; discriminate.
      * intros [= <-]. split; [reflexivity|]. exists i.
        split; [exact Fit|]. right. right. exists method, form. reflexivity.
    + unfold mark_taken. destruct (fits_int64 i) eqn:Fit.
      * destruct (select_id i s); discriminate.
      * intros [= <-]. split; [reflexivity|]. exists i. auto.
    + unfold delete_med. destruct (fits_int64 i) eqn:Fit; [discriminate|].
      intros [= <-]. split; [reflexivity|]. exists i. auto.
  - intros (-> & i & Fit & [->|[->|(method & form & ->)]]); cbn [handle].
    + rewrite (mark_taken_unfit _ _ _ Fit). reflexivity.
    + rewrite (delete_med_unfit _ _ Fit). reflexivity.
    + rewrite (edit_med_unfit _ _ _ _ Fit). reflexivity.
Qed.

(** ** Creating, again *)

Lemma first_failure_none_iff (name dose schedule : string) :
  first_failure name dose schedule = None <->
  name <> "" /\ dose <> "" /\ schedule <> ""
  /\ String.length name <= 60 /\ String.length dose <= 60
  /\ String.length schedule <= 40.
Proof.
  unfold first_failure, rules_in_order. cbn [find rule_holds].
  destruct (String.eqb_spec name ""), (String.eqb_spec dose ""),
    (String.eqb_spec schedule ""); cbn [negb andb];
    try (split; [discriminate | tauto]).
  destruct (Nat.leb_spec (String.length name) 60); cbn [negb];
    [|split; [discriminate | lia]].
  destruct (Nat.leb_spec (String.length dose) 60); cbn [negb];
    [|split; [discriminate | lia]].
  destruct (Nat.leb_spec (String.length schedule) 40); cbn [negb];
    [|split; [discriminate | lia]].
  tauto.
Qed.

(** X18. A create request writes exactly when its form is valid: the
    table of medications grows by one row when name, dose and schedule
    are, after trimming, non-empty and of at most 60, 60 and 40
    characters, and the database stays as it is in every other case;
    the notes and the database play no part in the decision. *)
Theorem add_med_writes_iff_valid (form : multidict) (now : datetime)
    (s : db) :
  let valid :=
    field "name" form <> "" /\ field "dose" form <> ""
    /\ field "schedule" form <> ""
    /\ String.length (field "name" form) <= 60
    /\ String.length (field "dose" form) <= 60
    /\ String.length (field "schedule" form) <= 40 in
  (valid <->
   length (meds (db_after (add_med POST form now s))) = S (length (meds s)))
  /\ (~ valid <-> db_after (add_med POST form now s) = s).
Proof.
  cbn zeta. rewrite <- first_failure_none_iff.
  unfold add_med. rewrite validate_med_form_spec.
  destruct (first_failure _ _ _) as [r|]; cbn [negb db_after].
  - split; split; try discriminate; try reflexivity; try congruence.
    intros H. exfalso. lia.
  - assert (L : length (meds (insert_med (field "name" form)
                                 (field "dose" form) (field "schedule" form)
                                 (Some (field "notes" form)) (now_iso now) s))
                = S (length (meds s))).
    { cbn [insert_med meds]. rewrite length_app. simpl. lia. }
    split; split; auto.
    + intros H. exfalso. apply H. reflexivity.
    + intros E. rewrite E in L. lia.
Qed.

(** ** The history after an update and after a dose *)

(** X19. The history shows medications as they are now, not as they were
    when the dose was taken: after an accepted update of a stored
    medication, under an id SQLite can bind, every history row of its
    doses carries the new name, dose and schedule. *)
Theorem history_shows_edited_med (i : Z) (form : multidict) (s : db)
    (m : Meds.row) (today : bool) (now : datetime)
    (r : TakenLogs.row * Meds.row) :
  fits_int64 i = true ->
  select_med i s = Some m ->
  first_failure (field "name" form) (field "dose" form)
                (field "schedule" form) = None ->
  In r (history_select today now (db_after (edit_med i POST form s))) ->
  TakenLogs.med_id (fst r) = i ->
  In (fst r) (taken_logs s)
  /\ history_columns r =
     mkHistoryRow (TakenLogs.taken_at (fst r)) (field "name" form)
                  (field "dose" form) (field "schedule" form).
Proof.
  intros Fit S V Hr Hi. apply history_select_in in Hr.
  destruct Hr as (Ht & Hm & E & _). revert Ht Hm.
  unfold edit_med, select_med_view.
  rewrite Fit, S, validate_med_form_spec, V.
  cbn [negb db_after update_med meds taken_logs].
  intros Ht Hm. split; [exact Ht|].
  apply in_map_iff in Hm. destruct Hm as (x & Ex & _).
  unfold history_columns. rewrite <- Ex in E |- *.
  destruct (Z.eqb_spec (Meds.id x) i) as [_|N]; [reflexivity|].
  exfalso. apply N. congruence.
Qed.

Lemma history_shows_edited_med_witness :
  fits_int64 1%Z = true
  /\ select_med 1%Z db_taken_twice <> None
  /\ first_failure (field "name" ibuprofen_form)
                   (field "dose" ibuprofen_form)
                   (field "schedule" ibuprofen_form) = None
  /\ forall r,
       In r (history_select false later_clock
               (db_after (edit_med 1%Z POST ibuprofen_form
                                   db_taken_twice))) ->
       TakenLogs.med_id (fst r) = 1%Z ->
       hr_name (history_columns r) = "Ibuprofen".
Proof.
  split; [reflexivity|]. split; [discriminate|]. split; [reflexivity|].
  intros r Hr Hi.
  destruct (history_shows_edited_med 1%Z ibuprofen_form db_taken_twice
              (Meds.mk 1 "Aspirin" "100mg" "Morning" (Some "")
                       "2024-03-05T09:07:01")
              false later_clock r eq_refl eq_refl eq_refl Hr Hi) as [_ H].
  rewrite H. reflexivity.
Defined.


